(** * birdsync: the eBird CSV reader, timestamp resolution, Macaulay Library
      asset download and the iNaturalist paginated observation download

    A shallow embedding of package [ebird] (Record, Observed, Records,
    ObservationID, DownloadMLAsset) and of [inat.Client.DownloadObservations].
    Go [int] values are [Z] (indices and lengths, which are never negative,
    are [nat]); Go strings are [string]; Go maps are [gmap]; calls that end
    the process ([log.Fatal], [log.Fatalf]) are an explicit outcome. *)

From Stdlib Require Import ZArith Ascii String List Lia Bool.
From stdpp Require Import gmap strings list fin_maps.

Local Open Scope string_scope.

(** ** Go's [time.Parse], for the layouts that [Record.Observed] uses

    [Observed] passes four layouts to [time.Parse]: ["1/2/2006"],
    ["2006-01-02"], ["1/2/2006 3:04 PM"] and ["2006-01-02 03:04 PM"]. The
    model follows the standard library's [parse], [nextStdChunk], [skip],
    [getnum], [atoi] and [daysIn] on the layout elements that occur in those
    four: 2006, 1, 01, 2, 02, 3, 03, 04 and PM. No zone is named in them, so
    the result is in UTC with zero seconds. *)
Module time.
Local Open Scope Z_scope.

(** The layout elements ([std] codes); [stdNone] is Go's [0], returned when
    the rest of the layout is literal text. *)
Inductive std : Set :=
  | stdNone | stdLongYear | stdNumMonth | stdZeroMonth | stdDay | stdZeroDay
  | stdHour12 | stdZeroHour12 | stdZeroMinute | stdPM.

(** The [switch] of [nextStdChunk] at one position of the layout: [c] is
    [layout[i]], [rest] is [layout[i+1:]]; the result is the element that
    starts there and the suffix after it, if one starts there. Characters of
    the other cases of Go's switch either do not occur in the four layouts
    or (the '-' of ["2006-01-02"], which is not followed by 07) fall through
    as literal text there. *)
Definition stdAt (c : ascii) (rest : string) : option (std * string) :=
  match c, rest with
  | "0"%char, String "1" suffix => Some (stdZeroMonth, suffix)
  | "0"%char, String "2" suffix => Some (stdZeroDay, suffix)
  | "0"%char, String "3" suffix => Some (stdZeroHour12, suffix)
  | "0"%char, String "4" suffix => Some (stdZeroMinute, suffix)
  | "1"%char, _ => Some (stdNumMonth, rest)
  | "2"%char, String "0" (String "0" (String "6" suffix)) =>
      Some (stdLongYear, suffix)
  | "2"%char, _ => Some (stdDay, rest)
  | "3"%char, _ => Some (stdHour12, rest)
  | "P"%char, String "M" suffix => Some (stdPM, suffix)
  | _, _ => None
  end.

(** [nextStdChunk(layout) (prefix, std, suffix)]: the literal text before the
    first layout element, the element, and the text after it. *)
Fixpoint nextStdChunk (layout : string) : string * std * string :=
  match layout with
  | EmptyString => (EmptyString, stdNone, EmptyString)
  | String c rest =>
      match stdAt c rest with
      | Some (st, suffix) => (EmptyString, st, suffix)
      | None =>
          let '(prefix, st, suffix) := nextStdChunk rest in
          (String c prefix, st, suffix)
      end
  end.

(** ['0' <= c && c <= '9'] *)
Definition isDigit (c : ascii) : bool :=
  let n := N_of_ascii c in ((48 <=? n) && (n <=? 57))%N.

(** [int(c - '0')] *)
Definition digitVal (c : ascii) : Z := Z.of_N (N_of_ascii c) - 48.

(** [getnum(s, fixed)]: one or two leading digits, exactly two when [fixed];
    [None] is [errBad] (Go then leaves the number at 0 and the value as it
    was). *)
Definition getnum (s : string) (fixed : bool) : option (Z * string) :=
  match s with
  | String c0 r0 =>
      if isDigit c0 then
        match r0 with
        | String c1 r1 =>
            if isDigit c1 then Some (digitVal c0 * 10 + digitVal c1, r1)
            else if fixed then None else Some (digitVal c0, r0)
        | EmptyString => if fixed then None else Some (digitVal c0, r0)
        end
      else None
  | EmptyString => None
  end.

(** [leadingInt]: the digits at the front of [s] as a number (started at
    [x]) and the rest. Its overflow guard is out of reach of the four
    characters [parse] hands to [atoi]. *)
Fixpoint leadingInt (s : string) (x : Z) : Z * string :=
  match s with
  | String c r => if isDigit c then leadingInt r (x * 10 + digitVal c) else (x, s)
  | EmptyString => (x, s)
  end.

(** [atoi]: an optional sign, then digits up to the end; [None] is
    [errAtoi]. *)
Definition atoi (s : string) : option Z :=
  let '(neg, s') :=
    match s with
    | String "-" r => (true, r)
    | String "+" r => (false, r)
    | _ => (false, s)
    end in
  let '(q, rem) := leadingInt s' 0 in
  match rem with
  | EmptyString => Some (if neg then - q else q)
  | _ => None
  end.

(** [cutspace]: drop the leading spaces. *)
Fixpoint cutspace (s : string) : string :=
  match s with
  | String " " r => cutspace r
  | _ => s
  end.

(** The loop of [skip(value, prefix)]; every turn shortens [prefix], so
    [String.length prefix] turns are enough. [None] is [errBad]. *)
Fixpoint skipLoop (fuel : nat) (value prefix : string) : option string :=
  match prefix with
  | EmptyString => Some value
  | String p0 prefix' =>
      match fuel with
      | O => None
      | S fuel' =>
          if Ascii.eqb p0 " " then
            match value with
            | String v0 _ =>
                if negb (Ascii.eqb v0 " ") then None
                else skipLoop fuel' (cutspace value) (cutspace prefix)
            | EmptyString => skipLoop fuel' (cutspace value) (cutspace prefix)
            end
          else
            match value with
            | String v0 value' =>
                if Ascii.eqb v0 p0 then skipLoop fuel' value' prefix' else None
            | EmptyString => None
            end
      end
  end.

Definition skip (value prefix : string) : option string :=
  skipLoop (String.length prefix) value prefix.

(** [isLeap] and [daysIn(m, year)]. *)
Definition isLeap (year : Z) : bool :=
  (year mod 4 =? 0) && (negb (year mod 100 =? 0) || (year mod 400 =? 0)).

Definition daysIn (m year : Z) : Z :=
  if (m =? 2) && isLeap year then 29
  else if m =? 2 then 28
  else if (m =? 4) || (m =? 6) || (m =? 9) || (m =? 11) then 30
  else 31.

(** A [time.Time] in UTC as [Date(year, month, day, hour, min, 0, 0, UTC)]
    builds it. [parse] calls [Date] with a month in 1..12, a day of that
    month, an hour in 0..23 and a minute in 0..59 only, which [Date] keeps as
    they are; two such values are the same instant iff they are equal. *)
Record Time : Set := Date {
  Year : Z; Month : Z; Day : Z; Hour : Z; Minute : Z
}.

(** [*time.ParseError], by its [Message]: empty for a value that does not
    match the layout, or which part is out of range or left over. *)
Record ParseError : Set := newParseError { Message : string }.

(** The variables of [parse]: the time being constructed. *)
Record fields : Set := mkFields {
  year : Z; month : Z; day : Z; hour : Z; min : Z;
  amSet : bool; pmSet : bool
}.

Definition fields0 : fields :=
  {| year := 0; month := -1; day := -1; hour := 0; min := 0;
     amSet := false; pmSet := false |}.

(** The assignments to these variables. *)
Definition setYear (v : fields) (y : Z) : fields :=
  mkFields y (month v) (day v) (hour v) (min v) (amSet v) (pmSet v).
Definition setMonth (v : fields) (m : Z) : fields :=
  mkFields (year v) m (day v) (hour v) (min v) (amSet v) (pmSet v).
Definition setDay (v : fields) (d : Z) : fields :=
  mkFields (year v) (month v) d (hour v) (min v) (amSet v) (pmSet v).
Definition setHour (v : fields) (h : Z) : fields :=
  mkFields (year v) (month v) (day v) h (min v) (amSet v) (pmSet v).
Definition setMin (v : fields) (mi : Z) : fields :=
  mkFields (year v) (month v) (day v) (hour v) mi (amSet v) (pmSet v).
Definition setAM (v : fields) : fields :=
  mkFields (year v) (month v) (day v) (hour v) (min v) true (pmSet v).
Definition setPM (v : fields) : fields :=
  mkFields (year v) (month v) (day v) (hour v) (min v) (amSet v) true.

(** One case of the [switch std & stdMask] in [parse]: the updated
    variables, the rest of the value, [rangeErrString] and whether [err] is
    set. *)
Definition parseStd (st : std) (value : string) (v : fields)
  : fields * string * string * bool :=
  match st with
  | stdLongYear =>
      match value with
      | String c0 (String c1 (String c2 (String c3 value'))) =>
          if negb (isDigit c0) then (v, value, "", true)
          else
            match atoi (String c0 (String c1 (String c2 (String c3 "")))) with
            | Some y => (setYear v y, value', "", false)
            | None => (v, value', "", true)
            end
      | _ => (v, value, "", true)
      end
  | stdNumMonth | stdZeroMonth =>
      match getnum value (match st with stdZeroMonth => true | _ => false end) with
      | Some (m, value') =>
          (setMonth v m, value', if (m <=? 0) || (12 <? m) then "month" else "", false)
      | None => (v, value, "", true)
      end
  | stdDay | stdZeroDay =>
      match getnum value (match st with stdZeroDay => true | _ => false end) with
      | Some (d, value') => (setDay v d, value', "", false)
      | None => (v, value, "", true)
      end
  | stdHour12 | stdZeroHour12 =>
      match getnum value (match st with stdZeroHour12 => true | _ => false end) with
      | Some (h, value') =>
          (setHour v h, value', if (h <? 0) || (12 <? h) then "hour" else "", false)
      | None => (v, value, "", true)
      end
  | stdZeroMinute =>
      match getnum value true with
      | Some (m, value') =>
          (setMin v m, value', if (m <? 0) || (60 <=? m) then "minute" else "", false)
      | None => (v, value, "", true)
      end
  | stdPM =>
      match value with
      | String "P" (String "M" value') => (setPM v, value', "", false)
      | String "A" (String "M" value') => (setAM v, value', "", false)
      | String _ (String _ value') => (v, value', "", true)
      | _ => (v, value, "", true)
      end
  | stdNone => (v, value, "", false)
  end.

(** What [parse] does after its loop: the AM/PM adjustment of the hour, the
    defaults of month and day, the check of the day against the month, and
    [Date]. *)
Definition finish (v : fields) : Time + ParseError :=
  let hour' :=
    if pmSet v && (hour v <? 12) then hour v + 12
    else if amSet v && (hour v =? 12) then 0
    else hour v in
  let month' := if month v <? 0 then 1 else month v in
  let day' := if day v <? 0 then 1 else day v in
  if (day' <? 1) || (daysIn month' (year v) <? day') then
    inr (newParseError ": day out of range")
  else inl (Date (year v) month' day' hour' (min v)).

(** The loop of [parse]: each turn processes one layout element. A turn
    that finds an element drops at least one character of the layout, so
    [S (String.length layout)] turns are enough. *)
Fixpoint parseLoop (fuel : nat) (layout value : string) (v : fields)
  : Time + ParseError :=
  match fuel with
  | O => inr (newParseError "")
  | S fuel' =>
      let '(prefix, st, suffix) := nextStdChunk layout in
      match skip value prefix with
      | None => inr (newParseError "")
      | Some value1 =>
          match st with
          | stdNone =>
              match value1 with
              | EmptyString => finish v
              | _ => inr (newParseError ": extra text")
              end
          | _ =>
              let '(v', value2, rangeErrString, err) := parseStd st value1 v in
              if negb (String.eqb rangeErrString "") then
                inr (newParseError (": " +:+ rangeErrString +:+ " out of range"))
              else if err then inr (newParseError "")
              else parseLoop fuel' suffix value2 v'
          end
      end
  end.

(** [time.Parse(layout, value)] *)
Definition Parse (layout value : string) : Time + ParseError :=
  parseLoop (S (String.length layout)) layout value fields0.

End time.

(** ** Package ebird *)
Module ebird.

(** Record contains the fields in MyEBirdData.csv records. *)
Record Record := mkRecord {
  Line : Z; (* line in the CSV file *)
  SubmissionID : string;
  CommonName : string;
  ScientificName : string;
  TaxonomicOrder : string;
  Count : string;
  StateProvince : string;
  County : string;
  LocationID : string;
  Location : string;
  Latitude : string;
  Longitude : string;
  Date : string;
  Time : string;
  Protocol : string;
  DurationMin : string;
  AllObsReported : string;
  DistanceTraveledKm : string;
  AreaCoveredHa : string;
  NumberOfObservers : string;
  BreedingCode : string;
  ObservationDetails : string;
  ChecklistComments : string;
  MLCatalogNumbers : string
}.

(** [func (r Record) URL() string] *)
Definition URL (r : Record) : string :=
  "https://ebird.org/checklist/" +:+ SubmissionID r.

(** [strings.Contains(s, "/")] *)
Fixpoint containsSlash (s : string) : bool :=
  match s with
  | EmptyString => false
  | String c r => Ascii.eqb c "/" || containsSlash r
  end.

(** [func (r Record) Observed() (time.Time, error)]: the observation time
    or the error of [time.Parse]. *)
Definition Observed (r : Record) : time.Time + time.ParseError :=
  if String.eqb (Time r) "" then
    if containsSlash (Date r) then time.Parse "1/2/2006" (Date r)
    else time.Parse "2006-01-02" (Date r)
  else if containsSlash (Date r) then
    time.Parse "1/2/2006 3:04 PM" (Date r +:+ " " +:+ Time r)
  else
    time.Parse "2006-01-02 03:04 PM" (Date r +:+ " " +:+ Time r).

(** ObservationID identifies a unique eBird observation as a submission ID
    and eBird's scientific name. *)
Record ObservationID := mkObservationID {
  oSubmissionID : string;
  oScientificName : string
}.

(** [func (r Record) ObservationID() ObservationID] *)
Definition Record_ObservationID (r : Record) : ObservationID :=
  mkObservationID (SubmissionID r) (ScientificName r).

(** [func (o ObservationID) Valid() bool]:
    [o.SubmissionID != "" && o.ScientificName != ""]. *)
Definition Valid (o : ObservationID) : bool :=
  negb (String.eqb (oSubmissionID o) "") && negb (String.eqb (oScientificName o) "").

(** [func (o ObservationID) String() string]:
    [fmt.Sprintf("%s[%s]", o.SubmissionID, o.ScientificName)]. *)
Definition ObservationID_String (o : ObservationID) : string :=
  oSubmissionID o +:+ "[" +:+ oScientificName o +:+ "]".

(** *** Records: the header map and the row decoder *)

(** [for i, f := range recs[0] { field[f] = i }], from index [i] on. *)
Fixpoint fieldFrom (i : nat) (header : list string) (field : gmap string nat)
  : gmap string nat :=
  match header with
  | [] => field
  | f :: rest => fieldFrom (S i) rest (<[f := i]> field)
  end.

(** [field := make(map[string]int)] followed by the loop over the header. *)
Definition makeField (header : list string) : gmap string nat :=
  fieldFrom 0 header ∅.

(** Reading a Go map at a key it does not hold gives the zero value. *)
Definition mapIndex (field : gmap string nat) (key : string) : nat :=
  default 0%nat (field !! key).

(** The closure [stringField]:
    [if f := field[key]; f < len(rec) { return rec[f] }; return ""].
    The slice read [rec[f]] is [rec !! f]: [None] stands for the run-time
    panic of an index out of range. *)
Definition stringField (field : gmap string nat) (rec : list string) (key : string)
  : option string :=
  let f := mapIndex field key in
  if (f <? length rec)%nat then rec !! f else Some "".

(** The composite literal built for row [i] (0-based index among the data
    rows); its fields are evaluated in order, and a panic in one of them
    leaves no Record. *)
Definition decode (field : gmap string nat) (i : nat) (rec : list string)
  : option Record :=
  let sf := stringField field rec in
  f1 ← sf "Submission ID"; f2 ← sf "Common Name"; f3 ← sf "Scientific Name";
  f4 ← sf "Taxonomic Order"; f5 ← sf "Count"; f6 ← sf "State/Province";
  f7 ← sf "County"; f8 ← sf "Location ID"; f9 ← sf "Location";
  f10 ← sf "Latitude"; f11 ← sf "Longitude"; f12 ← sf "Date"; f13 ← sf "Time";
  f14 ← sf "Protocol"; f15 ← sf "Duration (Min)"; f16 ← sf "All Obs Reported";
  f17 ← sf "Distance Traveled (km)"; f18 ← sf "Area Covered (ha)";
  f19 ← sf "Number of Observers"; f20 ← sf "Breeding Code";
  f21 ← sf "Observation Details"; f22 ← sf "Checklist Comments";
  f23 ← sf "ML Catalog Numbers";
  Some {| Line := Z.of_nat i + 2; (* header was line 1 *)
          SubmissionID := f1; CommonName := f2; ScientificName := f3;
          TaxonomicOrder := f4; Count := f5; StateProvince := f6;
          County := f7; LocationID := f8; Location := f9; Latitude := f10;
          Longitude := f11; Date := f12; Time := f13; Protocol := f14;
          DurationMin := f15; AllObsReported := f16;
          DistanceTraveledKm := f17; AreaCoveredHa := f18;
          NumberOfObservers := f19; BreedingCode := f20;
          ObservationDetails := f21; ChecklistComments := f22;
          MLCatalogNumbers := f23 |}.

(** The semantic fields of a Record with the column each is read from. *)
Definition columns : list (string * (Record -> string)) :=
  [ ("Submission ID", SubmissionID); ("Common Name", CommonName);
    ("Scientific Name", ScientificName); ("Taxonomic Order", TaxonomicOrder);
    ("Count", Count); ("State/Province", StateProvince); ("County", County);
    ("Location ID", LocationID); ("Location", Location);
    ("Latitude", Latitude); ("Longitude", Longitude); ("Date", Date);
    ("Time", Time); ("Protocol", Protocol); ("Duration (Min)", DurationMin);
    ("All Obs Reported", AllObsReported);
    ("Distance Traveled (km)", DistanceTraveledKm);
    ("Area Covered (ha)", AreaCoveredHa);
    ("Number of Observers", NumberOfObservers);
    ("Breeding Code", BreedingCode);
    ("Observation Details", ObservationDetails);
    ("Checklist Comments", ChecklistComments);
    ("ML Catalog Numbers", MLCatalogNumbers) ].

(** What a call does: it returns, or the process is ended by
    [log.Fatalf] / [log.Fatal] with the logged message. *)
Inductive outcome (A : Type) : Type :=
  | Return (a : A)
  | Fatal (msg : string).
Arguments Return {A} a.
Arguments Fatal {A} msg.

(** [iter.Seq[V]] is [func(yield func(V) bool)]. The consumer behind [yield]
    has a state of its own, threaded here; [None] is a run-time panic in the
    producer. *)
Definition Seq (V : Type) : Type :=
  forall St : Type, (V -> St -> bool * St) -> St -> option St.

(** [for i, rec := range recs { ... if !yield(Record{...}) { return } }],
    from index [i] on. *)
Fixpoint rangeRecs {St : Type} (field : gmap string nat) (i : nat)
    (recs : list (list string)) (yield : Record -> St -> bool * St) (s : St)
  : option St :=
  match recs with
  | [] => Some s
  | rec :: rest =>
      match decode field i rec with
      | None => None
      | Some r =>
          let '(more, s') := yield r s in
          if more then rangeRecs field (S i) rest yield s' else Some s'
      end
  end.

Section Records.
(** The file system and [encoding/csv]: [os.Open] gives a file or an error
    (errors are their [%v] text), [csv.Reader.ReadAll] with
    [FieldsPerRecord = -1] gives the rows, of any widths, or an error. *)
Variable File : Type.
Variable os_Open : string -> File + string.
Variable csv_ReadAll : File -> list (list string) + string.

(** [func Records(filename string) (iter.Seq[Record], error)]; the second
    component is the returned error, [None] for [nil]. *)
Definition Records (filename : string) : outcome (Seq Record * option string) :=
  match os_Open filename with
  | inr err => Fatal ("ebird.Records(" +:+ filename +:+ "): " +:+ err)
  | inl f =>
      match csv_ReadAll f with
      | inr err =>
          Fatal ("Error reading CSV records from " +:+ filename +:+ ": " +:+ err)
      | inl [] => Fatal ("No records found in " +:+ filename)
      | inl (header :: recs) =>
          Return (fun St => rangeRecs (makeField header) 0 recs, None)
      end
  end.
End Records.

(** *** DownloadMLAsset *)

(** The part of an [*http.Response] the function reads. *)
Record Response : Set := mkResponse {
  StatusCode : Z;
  Status : string; (* e.g. 404 Not Found *)
  Body : string
}.

Definition StatusOK : Z := 200.
Definition StatusNotFound : Z := 404.

(** The two URLs the function builds with [fmt.Sprintf]. *)
Definition photoURL (mlAssetID : string) : string :=
  "https://cdn.download.ams.birds.cornell.edu/api/v2/asset/" +:+ mlAssetID +:+ "/2400".

Definition soundURL (mlAssetID : string) : string :=
  "https://cdn.download.ams.birds.cornell.edu/api/v2/asset/" +:+ mlAssetID +:+ "/mp3".

(** The [%w] verb of [fmt.Errorf] on an error, [nil] included. *)
Definition verbW (err : option string) : string :=
  match err with
  | Some e => e
  | None => "%!w(<nil>)"
  end.

Section DownloadMLAsset.
(** The world outside: [http.Get] by URL (a response, or the text of a
    transport error), and the file and MIME operations, each with the
    error it may give. *)
Variable http_Get : string -> Response + string.
Variable os_CreateTemp : string + string.        (* the name of the file *)
Variable io_Copy : string -> option string.      (* body copied to the file *)
Variable tmpFile_Seek : option string.
Variable tmpFile_Read : string -> string + string. (* at most 512 bytes; not io.EOF *)
Variable DetectContentType : string -> string.
Variable ExtensionsByType : string -> list string + string.
Variable os_Rename : string -> string -> option string.

(** The three results of the Go function: the local filename, whether it
    is a photo, and the error ([None] for [nil]). *)
Definition result : Type := string * bool * option string.

(** From [os.CreateTemp] to the end: store the body and name the file. *)
Definition store (mlAssetID : string) (isPhoto : bool) (resp : Response) : result :=
  let pre := "DownloadMLAsset(" +:+ mlAssetID +:+ "): " in
  match os_CreateTemp with
  | inr err => ("", isPhoto, Some (pre +:+ "CreateTemp: " +:+ err))
  | inl tmpName =>
      match io_Copy (Body resp) with
      | Some err =>
          ("", isPhoto, Some (pre +:+ "failed to copy asset data to file: " +:+ err))
      | None =>
          let ext : result + string :=
            if isPhoto then
              (* For photos only: re-open the file to detect content type *)
              match tmpFile_Seek with
              | Some err =>
                  inl ("", isPhoto,
                       Some (pre +:+ "failed to seek to beginning of temp file: " +:+ err))
              | None =>
                  match tmpFile_Read (Body resp) with
                  | inr err =>
                      inl ("", isPhoto,
                           Some (pre +:+ "failed to read from temp file for content type detection: " +:+ err))
                  | inl buf =>
                      let mimeType := DetectContentType buf in
                      match ExtensionsByType mimeType with
                      | inr err =>
                          inl ("", isPhoto,
                               Some (pre +:+ "failed to find file extension for mime type "
                                     +:+ mimeType +:+ ": " +:+ verbW (Some err)))
                      | inl [] =>
                          inl ("", isPhoto,
                               Some (pre +:+ "failed to find file extension for mime type "
                                     +:+ mimeType +:+ ": " +:+ verbW None))
                      | inl (e :: _) => inr e
                      end
                  end
              end
            else inr ".mp3" in
          match ext with
          | inl failed => failed
          | inr ext =>
              let newPath := tmpName +:+ ext in
              match os_Rename tmpName newPath with
              | Some err => ("", isPhoto, Some (pre +:+ "failed to rename file: " +:+ err))
              | None => (newPath, isPhoto, None)
              end
          end
      end
  end.

(** [func DownloadMLAsset(mlAssetID string) (string, bool, error)], with
    the URLs given to [http.Get], in the order of the calls. *)
Definition DownloadMLAsset (mlAssetID : string) : result * list string :=
  let pre := "DownloadMLAsset(" +:+ mlAssetID +:+ "): " in
  (* Try fetching this ML asset as a photo *)
  let url := photoURL mlAssetID in
  match http_Get url with
  | inr err => (("", false, Some (pre +:+ url +:+ ": " +:+ err)), [url])
  | inl resp =>
      let isPhoto := Z.eqb (StatusCode resp) StatusOK in
      if Z.eqb (StatusCode resp) StatusNotFound then
        (* Photo not found; try fetching it as a sound *)
        let url := soundURL mlAssetID in
        match http_Get url with
        | inr err =>
            (("", isPhoto, Some (pre +:+ url +:+ ": " +:+ err)),
             [photoURL mlAssetID; url])
        | inl resp =>
            if negb (Z.eqb (StatusCode resp) StatusOK) then
              (("", isPhoto, Some (pre +:+ url +:+ ": " +:+ Status resp)),
               [photoURL mlAssetID; url])
            else (store mlAssetID isPhoto resp, [photoURL mlAssetID; url])
        end
      else if negb (Z.eqb (StatusCode resp) StatusOK) then
        (("", isPhoto, Some (pre +:+ url +:+ ": " +:+ Status resp)), [url])
      else (store mlAssetID isPhoto resp, [url])
  end.
End DownloadMLAsset.

(** How many times a URL was requested. *)
Definition requestsTo (url : string) (trace : list string) : nat :=
  length (filter (fun u => u = url) trace).

End ebird.


(** ** Package inat *)
Module inat.
Local Open Scope Z_scope.
Local Open Scope list_scope.

(** The query of one [GET] on [baseURL + "/observations"]. *)
Record Request : Set := mkRequest {
  user_id : string;
  page : nat;
  per_page : nat;
  iconic_taxa : string;
  d1 : option string;
  d2 : option string;
  fields : option string
}.

(** [const perPage = 200] *)
Definition perPage : nat := 200.

(** [strings.Join(fields, ",")] *)
Fixpoint Join (elems : list string) (sep : string) : string :=
  match elems with
  | [] => ""
  | [e] => e
  | e :: rest => e +:+ sep +:+ Join rest sep
  end.

(** What a call does: it returns, or [log.Fatal(err)] ends the process. *)
Inductive outcome (A : Type) : Type :=
  | Return (a : A)
  | Fatal (err : string).
Arguments Return {A} a.
Arguments Fatal {A} err.

Section DownloadObservations.
(** The element type of [Observations.Results]. *)
Variable Result : Type.

(** The decoded body of one page: the fields the loop reads. *)
Record Observations : Type := mkObservations {
  TotalResults : Z;
  Results : list Result
}.

(** The remote end, from [url.Parse] to [json.Unmarshal]: the decoded
    answer to a request, or the error that any of these steps gives. *)
Variable exchange : Request -> Observations + string.

(** The arguments: the user, the dates already formatted as 2006-01-02
    ([None] for a zero [time.Time]), and the field names. *)
Variable inatUserID : string.
Variable d1str d2str : option string.
Variable fieldNames : list string.

(** The request of one turn of the loop. *)
Definition request (page : nat) : Request :=
  {| user_id := inatUserID;
     page := page;
     per_page := perPage;
     iconic_taxa := "Aves";
     d1 := d1str;
     d2 := d2str;
     fields := if (0 <? length fieldNames)%nat
               then Some (Join fieldNames ",") else None |}.

(** The variables of the loop, and the requests sent so far. *)
Record state : Type := mkState {
  curPage : nat;
  results : list Result;
  totalResults : Z;
  sent : list Request
}.

Definition start : state :=
  {| curPage := 1; results := []; totalResults := 0; sent := [] |}.

(** One turn of [for page := 1; ; page++ { ... }]. *)
Inductive turn : Type :=
  | Continue (s : state)
  | Break (results : list Result) (sent : list Request)
  | Exit (err : string) (sent : list Request).

(** [if totalResults == 0 { totalResults = observations.TotalResults }]:
    the total that the turn compares with. *)
Definition captured (s : state) (observations : Observations) : Z :=
  if totalResults s =? 0 (* first loop *)
  then TotalResults observations else totalResults s.

Definition body (s : state) : turn :=
  let sent' := sent s ++ [request (curPage s)] in
  match exchange (request (curPage s)) with
  | inr err => Exit err sent'
  | inl observations =>
      if TotalResults observations =? 0 then Break (results s) sent'
      else
        let totalResults' := captured s observations in
        let results' := results s ++ Results observations in
        if Z.of_nat (length results') >=? totalResults' then Break results' sent'
        else Continue {| curPage := S (curPage s); results := results';
                         totalResults := totalResults'; sent := sent' |}
  end.

(** At most [fuel] turns of the loop from [s]: the outcome with the
    requests sent, or [None] when the loop is still running. *)
Fixpoint loop (fuel : nat) (s : state) : option (outcome (list Result) * list Request) :=
  match fuel with
  | O => None
  | S fuel' =>
      match body s with
      | Continue s' => loop fuel' s'
      | Break results sent => Some (Return results, sent)
      | Exit err sent => Some (Fatal err, sent)
      end
  end.

(** [func (c *Client) DownloadObservations(inatUserID string, d1, d2
    time.Time, fields ...string) []Result], run for at most [fuel] turns. *)
Definition DownloadObservations (fuel : nat) : option (outcome (list Result) * list Request) :=
  loop fuel start.

(** The call comes to an end: it returns, or the process exits. *)
Definition terminates : Prop :=
  exists fuel out, DownloadObservations fuel = Some out.

(** The loop gets to state [s]. *)
Inductive reaches : state -> Prop :=
  | reaches_start : reaches start
  | reaches_turn s s' : reaches s -> body s = Continue s' -> reaches s'.

(** Every page that reports a nonzero total carries at least one
    result. *)
Definition progress : Prop :=
  forall p observations, exchange (request p) = inl observations ->
    TotalResults observations <> 0 -> Results observations <> [].

(** The results of page [p] that the loop adds to its own: those of an
    answer with a nonzero total. *)
Definition counted (p : nat) : list Result :=
  match exchange (request p) with
  | inl observations =>
      if TotalResults observations =? 0 then [] else Results observations
  | inr _ => []
  end.

(** The results that the answer to page [p] carries. *)
Definition pageResults (p : nat) : list Result :=
  match exchange (request p) with
  | inl observations => Results observations
  | inr _ => []
  end.
End DownloadObservations.

Arguments TotalResults {Result} _.
Arguments Results {Result} _.
Arguments mkObservations {Result} _ _.

End inat.

(** ** Texts of valid dates and clock times

    How a date and a 12-hour clock time are written: the year with four
    digits, month, day and minute with two, the hour with two digits
    (zero-padded) or as few as it needs (unpadded). *)
Module text.
Local Open Scope Z_scope.

(** The character of a digit 0..9. *)
Definition digit (n : Z) : ascii := ascii_of_N (Z.to_N (48 + n)).

Definition pad2 (n : Z) : string :=
  String (digit (n / 10)) (String (digit (n mod 10)) "").

Definition pad4 (n : Z) : string :=
  String (digit (n / 1000)) (String (digit (n / 100 mod 10)) (pad2 (n mod 100))).

Definition unpadded (n : Z) : string :=
  if n <? 10 then String (digit n) "" else pad2 n.

(** 2024-05-01 *)
Definition isoDate (y m d : Z) : string :=
  pad4 y +:+ "-" +:+ pad2 m +:+ "-" +:+ pad2 d.

(** 5/1/2024 *)
Definition slashDate (y m d : Z) : string :=
  unpadded m +:+ "/" +:+ unpadded d +:+ "/" +:+ pad4 y.

(** 03:04 PM when [padded], 3:04 PM when not. *)
Definition clock12 (padded : bool) (h mi : Z) (pm : bool) : string :=
  (if padded then pad2 h else unpadded h) +:+ ":" +:+ pad2 mi +:+ " "
  +:+ (if pm then "PM" else "AM").

(** The hour of the day of a 12-hour clock reading. *)
Definition hour24 (h : Z) (pm : bool) : Z :=
  if pm then (if h <? 12 then h + 12 else h) else (if h =? 12 then 0 else h).

(** Whether every element of a layout passes the test [ok], looking at
    most [fuel] elements ahead. *)
Fixpoint layoutOk (ok : time.std -> bool) (fuel : nat) (layout : string) : bool :=
  match fuel with
  | O => true
  | S fuel' =>
      let '(_, st, suffix) := time.nextStdChunk layout in
      match st with
      | time.stdNone => true
      | _ => ok st && layoutOk ok fuel' suffix
      end
  end.

(** The elements of a date: year, month and day. *)
Definition dateStd (st : time.std) : bool :=
  match st with
  | time.stdLongYear | time.stdNumMonth | time.stdZeroMonth
  | time.stdDay | time.stdZeroDay => true
  | _ => false
  end.

(** Whether a character occurs in a string. *)
Fixpoint occurs (c : ascii) (s : string) : bool :=
  match s with
  | EmptyString => false
  | String c' s' => Ascii.eqb c' c || occurs c s'
  end.

(** A calendar time: a month of the year, a day of that month, an hour of
    the day and a minute of the hour, in a year of four digits. *)
Definition validTime (t : time.Time) : Prop :=
  0 <= time.Year t <= 9999
  /\ 1 <= time.Month t <= 12
  /\ 1 <= time.Day t <= time.daysIn (time.Month t) (time.Year t)
  /\ 0 <= time.Hour t <= 23
  /\ 0 <= time.Minute t <= 59.

(** What the loop of [parse] keeps true of its variables: each one that
    has been read is in its range. *)
Definition inRange (v : time.fields) : Prop :=
  0 <= time.year v <= 9999
  /\ (time.month v = -1 \/ 1 <= time.month v <= 12)
  /\ 0 <= time.hour v <= 12
  /\ 0 <= time.min v <= 59.

(** The variables of the clock are as [parse] starts them. *)
Definition noClock (v : time.fields) : Prop :=
  time.hour v = 0 /\ time.min v = 0 /\ time.amSet v = false /\ time.pmSet v = false.

(** A record with the given date and time and nothing else. *)
Definition dated (d t : string) : ebird.Record :=
  ebird.mkRecord 2 "" "" "" "" "" "" "" "" "" "" "" d t "" "" "" "" "" "" "" "" "" "".

End text.

(** ** Sample worlds

    Concrete answers of the remote ends, on which the statements below are
    tried. *)
Module sample.
Local Open Scope Z_scope.

(** The asset 123 whose photo request is answered with the given status;
    its sound request is answered with 200. *)
Definition assetServer (code : Z) (status : string) (url : string)
  : ebird.Response + string :=
  if String.eqb url (ebird.photoURL "123")
  then inl (ebird.mkResponse code status "photo bytes")
  else inl (ebird.mkResponse 200 "200 OK" "sound bytes").

(** A consumer that takes every record of a sequence:
    [for r := range seq { out = append(out, r) }]. *)
Definition collect (r : ebird.Record) (out : list ebird.Record)
  : bool * list ebird.Record :=
  (true, out ++ [r])%list.

(** A consumer that leaves the loop once it holds [k] records:
    [for r := range seq { out = append(out, r); if len(out) >= k { break } }]. *)
Definition collectUpTo (k : nat) (r : ebird.Record) (out : list ebird.Record)
  : bool * list ebird.Record :=
  ((length (out ++ [r]) <? k)%nat, out ++ [r])%list.

(** An asset that neither endpoint has. *)
Definition missingAsset (url : string) : ebird.Response + string :=
  inl (ebird.mkResponse 404 "404 Not Found" "").

(** The rows of a file: a header and two rows, the second one short. *)
Definition csvRows : list (list string) :=
  [ ["Submission ID"; "Common Name"; "Scientific Name"];
    ["S1"; "Mallard"; "Anas platyrhynchos"];
    ["S2"; "Gadwall"] ].

(** Pages of observations, numbered as results. *)
Definition pages (answer : nat -> inat.Observations nat) (r : inat.Request)
  : inat.Observations nat + string :=
  inl (answer (inat.page r)).

(** No observation at all. *)
Definition noResults (p : nat) : inat.Observations nat :=
  inat.mkObservations 0 [].

(** 250 observations: 200 on page 1 and 50 on page 2. *)
Definition twoPages (p : nat) : inat.Observations nat :=
  match p with
  | 1%nat => inat.mkObservations 250 (seq 0 200)
  | 2%nat => inat.mkObservations 250 (seq 200 50)
  | _ => inat.mkObservations 250 []
  end.

(** A total of 5 is reported on every page, but only page 1 carries
    results, and only two. *)
Definition stalled (p : nat) : inat.Observations nat :=
  match p with
  | 1%nat => inat.mkObservations 5 [1%nat; 2%nat]
  | _ => inat.mkObservations 5 []
  end.

(** A total of 3 on every page, and one result on each. *)
Definition steady (p : nat) : inat.Observations nat :=
  inat.mkObservations 3 [p].

(** A total of 5 on page 1, which carries two results; a total of 0 on
    page 2. *)
Definition zeroLater (p : nat) : inat.Observations nat :=
  match p with
  | 1%nat => inat.mkObservations 5 [1%nat; 2%nat]
  | _ => inat.mkObservations 0 [9%nat]
  end.

(** Page 1 carries two results of a total of 5; the request of page 2
    fails. *)
Definition brokenAtPage2 (r : inat.Request) : inat.Observations nat + string :=
  match inat.page r with
  | 1%nat => inl (inat.mkObservations 5 [1%nat; 2%nat])
  | _ => inr "unexpected EOF"
  end.

(** A total of 3 and two results on page 1; page 2 carries the third
    result and reports a total of 100. *)
Definition inflating (p : nat) : inat.Observations nat :=
  match p with
  | 1%nat => inat.mkObservations 3 [1%nat; 2%nat]
  | _ => inat.mkObservations 100 [3%nat]
  end.

(** A negative total and no result. *)
Definition negativeTotal (p : nat) : inat.Observations nat :=
  inat.mkObservations (-1) [].

End sample.

(** * Properties *)

(** ** Record.URL and ObservationID *)

(** C9: for every Record r, r.URL() is the concatenation of
    https://ebird.org/checklist/ and r.SubmissionID. *)
Theorem URL_is_checklist_prefix_then_SubmissionID (r : ebird.Record) :
  ebird.URL r = "https://ebird.org/checklist/" +:+ ebird.SubmissionID r.
Proof. reflexivity. Qed.

Lemma eqb_empty_false (s : string) : String.eqb s "" = false <-> s <> "".
Proof. apply String.eqb_neq. Qed.

(** C8: for every Record, Valid() of the derived ObservationID holds iff
    both the submission identifier and the scientific name are non-empty. *)
Theorem Valid_iff_both_nonempty (r : ebird.Record) :
  ebird.Valid (ebird.Record_ObservationID r) = true
  <-> ebird.SubmissionID r <> "" /\ ebird.ScientificName r <> "".
Proof.
  unfold ebird.Valid, ebird.Record_ObservationID; simpl.
  rewrite andb_true_iff, !negb_true_iff, !eqb_empty_false.
  reflexivity.
Qed.

(** ** Records *)

(** C10: Records never returns a non-nil error. When it returns, the error
    is nil and the file was opened, parsed, and had a header row; otherwise
    the process was ended, because the file could not be opened, or could
    not be parsed, or held no row at all. *)
Theorem Records_returns_nil_error_or_exits
    (File : Type) (os_Open : string -> File + string)
    (csv_ReadAll : File -> list (list string) + string) (filename : string) :
  match ebird.Records File os_Open csv_ReadAll filename with
  | ebird.Return (_, err) =>
      err = None
      /\ exists f header recs,
           os_Open filename = inl f /\ csv_ReadAll f = inl (header :: recs)
  | ebird.Fatal _ =>
      (exists e, os_Open filename = inr e)
      \/ (exists f e, os_Open filename = inl f /\ csv_ReadAll f = inr e)
      \/ (exists f, os_Open filename = inl f /\ csv_ReadAll f = inl [])
  end.
Proof.
  unfold ebird.Records.
  destruct (os_Open filename) as [f|e] eqn:Hopen.
  - destruct (csv_ReadAll f) as [[|header recs]|e] eqn:Hread.
    + right; right. exists f. auto.
    + split; [reflexivity|]. exists f, header, recs. auto.
    + right; left. exists f, e. auto.
  - left. exists e. reflexivity.
Qed.

(** The guard of [stringField] keeps the slice read in bounds: no field
    read panics. *)
Lemma stringField_total (field : gmap string nat) (rec : list string) (key : string) :
  exists v, ebird.stringField field rec key = Some v.
Proof.
  unfold ebird.stringField.
  destruct (Nat.ltb_spec (ebird.mapIndex field key) (length rec)) as [Hlt|Hge].
  - destruct (lookup_lt_is_Some_2 rec _ Hlt) as [v Hv]. exists v. exact Hv.
  - exists "". reflexivity.
Qed.

(** A column of the header whose index is past the end of the row reads as
    the empty string. *)
Lemma stringField_past_row (field : gmap string nat) (rec : list string)
    (key : string) (f : nat) :
  field !! key = Some f -> (length rec <= f)%nat ->
  ebird.stringField field rec key = Some "".
Proof.
  intros Hf Hlen. unfold ebird.stringField, ebird.mapIndex. rewrite Hf. simpl.
  destruct (Nat.ltb_spec f (length rec)); [lia | reflexivity].
Qed.

(** A column that the header does not name reads the first cell of the
    row: the map read gives index 0. *)
Lemma stringField_absent_column (field : gmap string nat) (rec : list string)
    (key : string) :
  field !! key = None ->
  ebird.stringField field rec key = Some (hd "" rec).
Proof.
  intros Hf. unfold ebird.stringField, ebird.mapIndex. rewrite Hf. simpl.
  destruct rec; reflexivity.
Qed.

(** Decoding a row never panics, whatever the header and the row. *)
Lemma decode_total (field : gmap string nat) (i : nat) (rec : list string) :
  exists r, ebird.decode field i rec = Some r.
Proof.
  unfold ebird.decode.
  repeat match goal with
  | |- context [ebird.stringField field rec ?k] =>
      let v := fresh "v" in let Hv := fresh "Hv" in
      destruct (stringField_total field rec k) as [v Hv]; rewrite Hv; clear Hv
  end.
  simpl. eexists. reflexivity.
Qed.

(** Each semantic field of the decoded Record is what [stringField] reads
    for its column. *)
Lemma decode_fields (field : gmap string nat) (i : nat) (rec : list string)
    (r : ebird.Record) :
  ebird.decode field i rec = Some r ->
  forall key proj, In (key, proj) ebird.columns ->
    ebird.stringField field rec key = Some (proj r).
Proof.
  unfold ebird.decode.
  repeat match goal with
  | |- context [ebird.stringField field rec ?k] =>
      let v := fresh "v" in let Hv := fresh "Hv" in
      destruct (stringField_total field rec k) as [v Hv]; rewrite Hv
  end.
  cbn [mbind option_bind]. intros [= <-] key proj Hin.
  cbn [ebird.columns In] in Hin.
  repeat (destruct Hin as [Hin|Hin]; [injection Hin as <- <-; assumption|]).
  contradiction.
Qed.

(** In a decoded Record, a field whose column is in the header at an index
    past the end of the row is empty, and a field whose column the header
    does not name holds the first cell of the row (or nothing, for an empty
    row). *)
Lemma decode_field_cases (field : gmap string nat) (i : nat) (rec : list string)
    (r : ebird.Record) (key : string) (proj : ebird.Record -> string) :
  ebird.decode field i rec = Some r -> In (key, proj) ebird.columns ->
  (forall f, field !! key = Some f -> (length rec <= f)%nat -> proj r = "")
  /\ (field !! key = None -> proj r = hd "" rec).
Proof.
  intros Hdec Hin. pose proof (decode_fields _ _ _ _ Hdec _ _ Hin) as Hsf.
  split.
  - intros f Hf Hlen. rewrite (stringField_past_row _ _ _ _ Hf Hlen) in Hsf.
    congruence.
  - intros Hf. rewrite (stringField_absent_column _ _ _ Hf) in Hsf. congruence.
Qed.

(** C1: on the header [Common Name] and the row [Robin], the column
    Submission ID is absent from the header mapping, decoding succeeds, and
    the field SubmissionID of the Record is Robin, not the empty string. *)
Theorem decode_absent_column_reads_first_cell :
  ebird.makeField ["Common Name"] !! "Submission ID" = None
  /\ ebird.SubmissionID <$> ebird.decode (ebird.makeField ["Common Name"]) 0 ["Robin"]
     = Some "Robin"
  /\ "Robin" <> "".
Proof. split; [|split]; [vm_compute; reflexivity | vm_compute; reflexivity | discriminate]. Qed.

(** ** Record.Observed *)

Section Timestamps.
Import text.
Local Open Scope Z_scope.

(** *** Digits and padded numbers *)

(** The digits, to reason on each of them in turn. *)
Lemma digit_cases (n : Z) : 0 <= n <= 9 -> In n [0; 1; 2; 3; 4; 5; 6; 7; 8; 9].
Proof. intros H. simpl. lia. Qed.

Ltac each_digit H :=
  apply digit_cases in H; simpl in H;
  repeat (destruct H as [H|H]); [subst .. | contradiction].

Lemma append_cons c s r : String c s +:+ r = String c (s +:+ r).
Proof. reflexivity. Qed.

Lemma append_nil r : "" +:+ r = r.
Proof. reflexivity. Qed.

Ltac push_append := rewrite ?append_cons, ?append_nil.

Lemma append_nil_r s : s +:+ "" = s.
Proof. induction s as [|c s IH]; [reflexivity|]. rewrite append_cons, IH. reflexivity. Qed.

Lemma isDigit_digit n : 0 <= n <= 9 -> time.isDigit (digit n) = true.
Proof. intros H. each_digit H; reflexivity. Qed.

Lemma digitVal_digit n : 0 <= n <= 9 -> time.digitVal (digit n) = n.
Proof. intros H. each_digit H; reflexivity. Qed.

Lemma getnum_pad2 n rest fixed : 0 <= n <= 99 ->
  time.getnum (pad2 n +:+ rest) fixed = Some (n, rest).
Proof.
  intros H. unfold pad2, time.getnum. push_append.
  pose proof (Z.div_mod n 10 ltac:(lia)) as Hdm.
  pose proof (Z.mod_pos_bound n 10 ltac:(lia)) as Hm.
  assert (Ha : 0 <= n / 10 <= 9) by lia.
  assert (Hb : 0 <= n mod 10 <= 9) by lia.
  rewrite !isDigit_digit, !digitVal_digit by assumption.
  f_equal. f_equal. lia.
Qed.

Lemma unpadded_lt10 n : 0 <= n <= 9 -> unpadded n = String (digit n) "".
Proof. intros H. unfold unpadded. destruct (Z.ltb_spec n 10); [reflexivity|lia]. Qed.

Lemma getnum_one n c rest : 0 <= n <= 9 -> time.isDigit c = false ->
  time.getnum (String (digit n) (String c rest)) false = Some (n, String c rest)
  /\ time.getnum (String (digit n) (String c rest)) true = None.
Proof.
  intros H Hc. unfold time.getnum. rewrite isDigit_digit, digitVal_digit, Hc by assumption. auto.
Qed.

Lemma atoi_pad4 y : 0 <= y <= 9999 ->
  time.isDigit (digit (y / 1000)) = true /\ time.atoi (pad4 y) = Some y.
Proof.
  intros H.
  pose proof (Z.div_mod y 1000 ltac:(lia)) as H1.
  pose proof (Z.mod_pos_bound y 1000 ltac:(lia)) as H2.
  pose proof (Z.div_mod (y / 100) 10 ltac:(lia)) as H3.
  pose proof (Z.mod_pos_bound (y / 100) 10 ltac:(lia)) as H4.
  pose proof (Z.div_mod y 100 ltac:(lia)) as H5.
  pose proof (Z.mod_pos_bound y 100 ltac:(lia)) as H6.
  pose proof (Z.div_mod (y mod 100) 10 ltac:(lia)) as H7.
  pose proof (Z.mod_pos_bound (y mod 100) 10 ltac:(lia)) as H8.
  assert (Ha : 0 <= y / 1000 <= 9) by lia.
  assert (Hb : 0 <= y / 100 mod 10 <= 9) by lia.
  assert (Hc : 0 <= y mod 100 / 10 <= 9) by lia.
  assert (Hd : 0 <= y mod 100 mod 10 <= 9) by lia.
  split; [apply isDigit_digit; assumption|].
  assert (Hdiv : y / 100 / 10 = y / 1000) by (rewrite Z.div_div by lia; reflexivity).
  unfold pad4, pad2.
  assert (Hat : forall c0 c1 c2 c3, time.isDigit c0 = true ->
     time.atoi (String c0 (String c1 (String c2 (String c3 "")))) =
     let '(q, rem) := time.leadingInt (String c0 (String c1 (String c2 (String c3 "")))) 0 in
     match rem with EmptyString => Some q | _ => None end).
  { intros c0 c1 c2 c3 Hc0. unfold time.atoi.
    destruct c0 as [[] [] [] [] [] [] [] []]; try reflexivity; discriminate Hc0. }
  rewrite Hat by (apply isDigit_digit; assumption).
  cbn [time.leadingInt].
  rewrite !isDigit_digit, !digitVal_digit by assumption.
  f_equal. lia.
Qed.

Lemma div10_digit n : 0 <= n <= 99 -> 0 <= n / 10 <= 9.
Proof.
  intros H. pose proof (Z.div_mod n 10 ltac:(lia)).
  pose proof (Z.mod_pos_bound n 10 ltac:(lia)). lia.
Qed.

Lemma mod10_digit n : 0 <= n mod 10 <= 9.
Proof. pose proof (Z.mod_pos_bound n 10 ltac:(lia)). lia. Qed.

Lemma getnum_unpadded n c rest : 0 <= n <= 99 -> time.isDigit c = false ->
  time.getnum (unpadded n +:+ String c rest) false = Some (n, String c rest).
Proof.
  intros H Hc. unfold unpadded. destruct (Z.ltb_spec n 10).
  - push_append. apply getnum_one; [lia | assumption].
  - apply getnum_pad2. assumption.
Qed.

Lemma getnum_fixed_one n c rest : 0 <= n <= 9 -> time.isDigit c = false ->
  time.getnum (unpadded n +:+ String c rest) true = None.
Proof.
  intros H Hc. rewrite unpadded_lt10 by assumption. push_append.
  apply getnum_one; assumption.
Qed.

Lemma cutspace_digit n rest : 0 <= n <= 9 ->
  time.cutspace (String (digit n) rest) = String (digit n) rest.
Proof. intros H. each_digit H; reflexivity. Qed.

Lemma cutspace_pad2 n rest : 0 <= n <= 99 ->
  time.cutspace (pad2 n +:+ rest) = pad2 n +:+ rest.
Proof.
  intros H. unfold pad2. push_append.
  apply cutspace_digit, div10_digit, H.
Qed.

Lemma cutspace_unpadded n rest : 0 <= n <= 99 ->
  time.cutspace (unpadded n +:+ rest) = unpadded n +:+ rest.
Proof.
  intros H. unfold unpadded. destruct (Z.ltb_spec n 10).
  - push_append. apply cutspace_digit. lia.
  - apply cutspace_pad2. assumption.
Qed.

Lemma skip_nil value : time.skip value "" = Some value.
Proof. reflexivity. Qed.

Lemma skip_dash rest : time.skip (String "-" rest) "-" = Some rest.
Proof. reflexivity. Qed.

Lemma skip_slash rest : time.skip (String "/" rest) "/" = Some rest.
Proof. reflexivity. Qed.

Lemma skip_colon rest : time.skip (String ":" rest) ":" = Some rest.
Proof. reflexivity. Qed.

Lemma skip_space rest : time.skip (String " " rest) " " = Some (time.cutspace rest).
Proof. reflexivity. Qed.

Lemma containsSlash_digit n rest : 0 <= n <= 9 ->
  ebird.containsSlash (String (digit n) rest) = ebird.containsSlash rest.
Proof. intros H. each_digit H; reflexivity. Qed.

Lemma containsSlash_pad2 n rest : 0 <= n <= 99 ->
  ebird.containsSlash (pad2 n +:+ rest) = ebird.containsSlash rest.
Proof.
  intros H. unfold pad2. push_append.
  rewrite !containsSlash_digit by auto using div10_digit, mod10_digit. reflexivity.
Qed.

Lemma containsSlash_isoDate y m d :
  0 <= y <= 9999 -> 0 <= m <= 99 -> 0 <= d <= 99 ->
  ebird.containsSlash (isoDate y m d) = false.
Proof.
  intros Hy Hm Hd. unfold isoDate, pad4. push_append.
  assert (0 <= y / 1000 <= 9).
  { pose proof (Z.div_mod y 1000 ltac:(lia)).
    pose proof (Z.mod_pos_bound y 1000 ltac:(lia)). lia. }
  assert (0 <= y mod 100 <= 99) by (pose proof (Z.mod_pos_bound y 100 ltac:(lia)); lia).
  rewrite !containsSlash_digit by auto using mod10_digit.
  rewrite containsSlash_pad2 by assumption. cbn [ebird.containsSlash Ascii.eqb Bool.eqb orb andb].
  rewrite containsSlash_pad2 by assumption. cbn [ebird.containsSlash Ascii.eqb Bool.eqb orb andb].
  rewrite <- (append_nil_r (pad2 d)), containsSlash_pad2 by assumption. reflexivity.
Qed.

Lemma containsSlash_slashDate y m d : 0 <= m <= 99 ->
  ebird.containsSlash (slashDate y m d) = true.
Proof.
  intros Hm. unfold slashDate, unpadded. destruct (m <? 10).
  - push_append. assert (Hmod : 0 <= m <= 9 \/ ~ 0 <= m <= 9) by lia.
    cbn [ebird.containsSlash]. rewrite orb_true_r. reflexivity.
  - rewrite containsSlash_pad2 by assumption. reflexivity.
Qed.
Lemma append_assoc (a b c : string) : (a +:+ b) +:+ c = a +:+ (b +:+ c).
Proof. induction a as [|x a IH]; [reflexivity|]. rewrite !append_cons, IH. reflexivity. Qed.

Lemma atoi_digit_first c0 s : time.isDigit c0 = true ->
  time.atoi (String c0 s) =
  let '(q, rem) := time.leadingInt (String c0 s) 0 in
  match rem with EmptyString => Some q | _ => None end.
Proof.
  intros Hc0. unfold time.atoi.
  destruct c0 as [[] [] [] [] [] [] [] []]; try reflexivity; discriminate Hc0.
Qed.

Lemma parseStd_year y rest v : 0 <= y <= 9999 ->
  time.parseStd time.stdLongYear (pad4 y +:+ rest) v = (time.setYear v y, rest, "", false).
Proof.
  intros Hy. destruct (atoi_pad4 y Hy) as [Hd Hat].
  revert Hat. unfold pad4, pad2. push_append. intros Hat.
  cbn [time.parseStd]. rewrite Hd. cbn [negb]. rewrite Hat. reflexivity.
Qed.

Lemma parseStd_month value fixed m rest v :
  time.getnum value fixed = Some (m, rest) -> 1 <= m <= 12 ->
  time.parseStd (if fixed then time.stdZeroMonth else time.stdNumMonth) value v
  = (time.setMonth v m, rest, "", false).
Proof.
  intros Hg Hm. destruct fixed; cbn [time.parseStd]; rewrite Hg;
    destruct (Z.leb_spec m 0); try lia; destruct (Z.ltb_spec 12 m); try lia;
    reflexivity.
Qed.

Lemma parseStd_day value fixed d rest v :
  time.getnum value fixed = Some (d, rest) ->
  time.parseStd (if fixed then time.stdZeroDay else time.stdDay) value v
  = (time.setDay v d, rest, "", false).
Proof. intros Hg. destruct fixed; cbn [time.parseStd]; rewrite Hg; reflexivity. Qed.

Lemma parseStd_hour value fixed h rest v :
  time.getnum value fixed = Some (h, rest) -> 0 <= h <= 12 ->
  time.parseStd (if fixed then time.stdZeroHour12 else time.stdHour12) value v
  = (time.setHour v h, rest, "", false).
Proof.
  intros Hg Hh. destruct fixed; cbn [time.parseStd]; rewrite Hg;
    destruct (Z.ltb_spec h 0); try lia; destruct (Z.ltb_spec 12 h); try lia;
    reflexivity.
Qed.

Lemma parseStd_hour_bad value v :
  time.getnum value true = None ->
  time.parseStd time.stdZeroHour12 value v = (v, value, "", true).
Proof. intros Hg. cbn [time.parseStd]. rewrite Hg. reflexivity. Qed.

Lemma parseStd_minute value mi rest v :
  time.getnum value true = Some (mi, rest) -> 0 <= mi <= 59 ->
  time.parseStd time.stdZeroMinute value v = (time.setMin v mi, rest, "", false).
Proof.
  intros Hg Hm. cbn [time.parseStd]. rewrite Hg.
  destruct (Z.ltb_spec mi 0); try lia; destruct (Z.leb_spec 60 mi); try lia;
  reflexivity.
Qed.

Lemma parseStd_PM (pm : bool) v :
  time.parseStd time.stdPM (if pm then "PM" else "AM") v
  = (if pm then time.setPM v else time.setAM v, "", "", false).
Proof. destruct pm; reflexivity. Qed.

Lemma cutspace_ampm (pm : bool) :
  time.cutspace (if pm then "PM" else "AM") = if pm then "PM" else "AM".
Proof. destruct pm; reflexivity. Qed.

Lemma finish_date y m d h mi pm :
  1 <= m <= 12 -> 1 <= d <= time.daysIn m y -> 0 <= h <= 12 ->
  time.finish (time.mkFields y m d h mi (negb pm) pm)
  = inl (time.Date y m d (hour24 h pm) mi).
Proof.
  intros Hm Hd Hh. unfold time.finish, hour24.
  cbn [time.year time.month time.day time.hour time.min time.amSet time.pmSet].
  destruct (Z.ltb_spec m 0); try lia. destruct (Z.ltb_spec d 0); try lia.
  destruct (Z.ltb_spec d 1); try lia.
  destruct (Z.ltb_spec (time.daysIn m y) d); try lia.
  cbn [orb]. destruct pm; cbn [negb andb]; reflexivity.
Qed.

Lemma parseLoop_S fuel layout value v :
  time.parseLoop (S fuel) layout value v =
  let '(prefix, st, suffix) := time.nextStdChunk layout in
  match time.skip value prefix with
  | None => inr (time.newParseError "")
  | Some value1 =>
      match st with
      | time.stdNone =>
          match value1 with
          | EmptyString => time.finish v
          | _ => inr (time.newParseError ": extra text")
          end
      | _ =>
          let '(v', value2, rangeErrString, err) := time.parseStd st value1 v in
          if negb (String.eqb rangeErrString "") then
            inr (time.newParseError (": " +:+ rangeErrString +:+ " out of range"))
          else if err then inr (time.newParseError "")
          else time.parseLoop fuel suffix value2 v'
      end
  end.
Proof. reflexivity. Qed.

Ltac chunk :=
  rewrite parseLoop_S;
  match goal with
  | |- context [time.nextStdChunk ?L] =>
      let t := eval vm_compute in (time.nextStdChunk L) in
      change (time.nextStdChunk L) with t
  end;
  cbv beta iota zeta.


Ltac std_ok := cbv beta iota zeta; cbn [negb String.eqb].

Lemma isDigit_slash : time.isDigit "/" = false. Proof. reflexivity. Qed.
Lemma isDigit_colon : time.isDigit ":" = false. Proof. reflexivity. Qed.
Lemma Parse_iso_padded y m d h mi pm :
  0 <= y <= 9999 -> 1 <= m <= 12 -> 1 <= d <= time.daysIn m y ->
  0 <= h <= 12 -> 0 <= mi <= 59 ->
  time.Parse "2006-01-02 03:04 PM" (isoDate y m d +:+ " " +:+ clock12 true h mi pm)
  = inl (time.Date y m d (hour24 h pm) mi).
Proof.
  intros Hy Hm Hd Hh Hmi.
  assert (Hd' : d <= 31) by (revert Hd; unfold time.daysIn;
    repeat match goal with |- context [if ?b then _ else _] => destruct b end; lia).
  unfold isoDate, clock12. rewrite !append_assoc. push_append.
  unfold time.Parse. cbn [String.length].
  chunk. rewrite skip_nil, parseStd_year by assumption. std_ok.
  chunk. rewrite skip_dash.
  rewrite (parseStd_month _ true m _ _ (getnum_pad2 m _ true ltac:(lia))) by assumption. std_ok.
  chunk. rewrite skip_dash.
  rewrite (parseStd_day _ true d _ _ (getnum_pad2 d _ true ltac:(lia))). std_ok.
  chunk. rewrite skip_space, cutspace_pad2 by lia.
  rewrite (parseStd_hour _ true h _ _ (getnum_pad2 h _ true ltac:(lia))) by assumption. std_ok.
  chunk. rewrite skip_colon.
  rewrite (parseStd_minute _ mi _ _ (getnum_pad2 mi _ true ltac:(lia))) by assumption. std_ok.
  chunk. rewrite skip_space, cutspace_ampm, parseStd_PM. std_ok.
  chunk. rewrite skip_nil.
  rewrite <- (finish_date y m d h mi pm) by assumption. destruct pm; reflexivity.
Qed.

Lemma daysIn_le_31 m y : time.daysIn m y <= 31.
Proof.
  unfold time.daysIn.
  repeat match goal with |- context [if ?b then _ else _] => destruct b end; lia.
Qed.

Lemma Parse_iso_unpadded y m d h mi pm :
  0 <= y <= 9999 -> 1 <= m <= 12 -> 1 <= d <= time.daysIn m y ->
  0 <= h <= 9 -> 0 <= mi <= 59 ->
  time.Parse "2006-01-02 03:04 PM" (isoDate y m d +:+ " " +:+ clock12 false h mi pm)
  = inr (time.newParseError "").
Proof.
  intros Hy Hm Hd Hh Hmi. pose proof (daysIn_le_31 m y) as Hd'.
  unfold isoDate, clock12. rewrite !append_assoc. push_append.
  unfold time.Parse. cbn [String.length].
  chunk. rewrite skip_nil, parseStd_year by assumption. std_ok.
  chunk. rewrite skip_dash.
  rewrite (parseStd_month _ true m _ _ (getnum_pad2 m _ true ltac:(lia))) by assumption. std_ok.
  chunk. rewrite skip_dash.
  rewrite (parseStd_day _ true d _ _ (getnum_pad2 d _ true ltac:(lia))). std_ok.
  chunk. rewrite skip_space, cutspace_unpadded by lia.
  rewrite parseStd_hour_bad by (apply getnum_fixed_one; [assumption | reflexivity]).
  std_ok. reflexivity.
Qed.

Lemma Parse_slash_clock padded y m d h mi pm :
  0 <= y <= 9999 -> 1 <= m <= 12 -> 1 <= d <= time.daysIn m y ->
  0 <= h <= 12 -> 0 <= mi <= 59 ->
  time.Parse "1/2/2006 3:04 PM" (slashDate y m d +:+ " " +:+ clock12 padded h mi pm)
  = inl (time.Date y m d (hour24 h pm) mi).
Proof.
  intros Hy Hm Hd Hh Hmi. pose proof (daysIn_le_31 m y) as Hd'.
  unfold slashDate, clock12. rewrite !append_assoc. push_append.
  unfold time.Parse. cbn [String.length].
  chunk. rewrite skip_nil.
  rewrite (parseStd_month _ false m _ _ (getnum_unpadded m _ _ ltac:(lia) isDigit_slash))
    by assumption. std_ok.
  chunk. rewrite skip_slash.
  rewrite (parseStd_day _ false d _ _ (getnum_unpadded d _ _ ltac:(lia) isDigit_slash)). std_ok.
  chunk. rewrite skip_slash, parseStd_year by assumption. std_ok.
  chunk. rewrite skip_space.
  assert (Hhour : forall rest v,
    time.parseStd time.stdHour12
      (time.cutspace ((if padded then pad2 h else unpadded h) +:+ String ":" rest)) v
    = (time.setHour v h, String ":" rest, "", false)).
  { intros rest v. destruct padded.
    - rewrite cutspace_pad2 by lia.
      apply (parseStd_hour _ false h _ _ (getnum_pad2 h _ false ltac:(lia))); assumption.
    - rewrite cutspace_unpadded by lia.
      apply (parseStd_hour _ false h _ _ (getnum_unpadded h _ _ ltac:(lia) isDigit_colon));
        assumption. }
  rewrite Hhour. std_ok.
  chunk. rewrite skip_colon.
  rewrite (parseStd_minute _ mi _ _ (getnum_pad2 mi _ true ltac:(lia))) by assumption. std_ok.
  chunk. rewrite skip_space, cutspace_ampm, parseStd_PM. std_ok.
  chunk. rewrite skip_nil.
  rewrite <- (finish_date y m d h mi pm) by assumption. destruct pm; reflexivity.
Qed.

Lemma clock12_nonempty padded h mi pm : String.eqb (clock12 padded h mi pm) "" = false.
Proof.
  unfold clock12, unpadded, pad2. destruct padded; [|destruct (h <? 10)]; reflexivity.
Qed.


(** [Observed] reads the date and the time of the record only. *)
Lemma Observed_dated (r : ebird.Record) :
  ebird.Observed r = ebird.Observed (dated (ebird.Date r) (ebird.Time r)).
Proof. reflexivity. Qed.

(** An unparsable date fails at the year, whatever time follows. *)
Lemma Observed_not_a_date (t : string) :
  ebird.Observed (dated "not-a-date" t) = inr (time.newParseError "").
Proof.
  unfold ebird.Observed, dated; cbn [ebird.Date ebird.Time].
  destruct (String.eqb t ""); reflexivity.
Qed.

(** C4: 2024-05-01 with no time is midnight of May 1 2024, and so is
    5/1/2024; 2024-05-01 with 07:00 AM is 07:00 of that day; 5/1/2024 with
    3:04 PM is 15:04 of that day; the date not-a-date gives a parse error,
    whatever the time. *)
Theorem Observed_examples :
  ebird.Observed (dated "2024-05-01" "") = inl (time.Date 2024 5 1 0 0)
  /\ ebird.Observed (dated "5/1/2024" "") = inl (time.Date 2024 5 1 0 0)
  /\ ebird.Observed (dated "2024-05-01" "07:00 AM") = inl (time.Date 2024 5 1 7 0)
  /\ ebird.Observed (dated "5/1/2024" "3:04 PM") = inl (time.Date 2024 5 1 15 4)
  /\ forall t, ebird.Observed (dated "not-a-date" t) = inr (time.newParseError "").
Proof.
  repeat split; try (vm_compute; reflexivity). apply Observed_not_a_date.
Qed.

(** C3, as the code has it: with a valid date and a clock time h:mm AM/PM,
    a year-month-day date resolves with the zero-padded hour and is a parse
    error with the unpadded form of a one-digit hour; a month/day/year date
    resolves with either form, to the same instant. *)
Theorem Observed_hour_padding (y m d h mi : Z) (pm : bool) :
  0 <= y <= 9999 -> 1 <= m <= 12 -> 1 <= d <= time.daysIn m y ->
  1 <= h <= 12 -> 0 <= mi <= 59 ->
  ebird.Observed (dated (isoDate y m d) (clock12 true h mi pm))
    = inl (time.Date y m d (hour24 h pm) mi)
  /\ (h < 10 ->
      ebird.Observed (dated (isoDate y m d) (clock12 false h mi pm))
        = inr (time.newParseError ""))
  /\ (forall padded,
      ebird.Observed (dated (slashDate y m d) (clock12 padded h mi pm))
        = inl (time.Date y m d (hour24 h pm) mi)).
Proof.
  intros Hy Hm Hd Hh Hmi. pose proof (daysIn_le_31 m y) as Hd'.
  unfold ebird.Observed, dated; cbn [ebird.Date ebird.Time].
  rewrite !clock12_nonempty, containsSlash_isoDate by lia.
  split; [|split].
  - apply Parse_iso_padded; lia.
  - intros Hlt. apply Parse_iso_unpadded; lia.
  - intros padded.
    rewrite clock12_nonempty, containsSlash_slashDate by lia.
    apply Parse_slash_clock; lia.
Qed.

(** The theorem at 3:04 PM of May 1 2024. *)
Lemma Observed_hour_padding_witness :
  ebird.Observed (dated "2024-05-01" "03:04 PM") = inl (time.Date 2024 5 1 15 4)
  /\ ebird.Observed (dated "2024-05-01" "3:04 PM") = inr (time.newParseError "")
  /\ ebird.Observed (dated "5/1/2024" "03:04 PM") = inl (time.Date 2024 5 1 15 4)
  /\ ebird.Observed (dated "5/1/2024" "3:04 PM") = inl (time.Date 2024 5 1 15 4).
Proof.
  assert (H1 : 0 <= 2024 <= 9999) by lia.
  assert (H2 : 1 <= 5 <= 12) by lia.
  assert (H3 : 1 <= 1 <= time.daysIn 5 2024) by (vm_compute; split; discriminate).
  assert (H4 : 1 <= 3 <= 12) by lia.
  assert (H5 : 0 <= 4 <= 59) by lia.
  destruct (Observed_hour_padding 2024 5 1 3 4 true H1 H2 H3 H4 H5) as [Ha [Hb Hc]].
  split; [exact Ha|]. split; [apply Hb; lia|].
  split; [exact (Hc true) | exact (Hc false)].
Defined.

(** C3 as stated fails: for the date 2024-05-01 the unpadded 3:04 PM does
    not resolve, so the two forms do not both succeed. *)
Lemma Observed_iso_unpadded_hour_rejected :
  ~ (exists t : time.Time,
       ebird.Observed (dated "2024-05-01" "3:04 PM") = inl t
       /\ ebird.Observed (dated "2024-05-01" "03:04 PM") = inl t).
Proof.
  intros [t [Hunpadded _]]. vm_compute in Hunpadded. discriminate Hunpadded.
Qed.

End Timestamps.

(** ** DownloadMLAsset *)

Lemma append_inj_l (s a b : string) : s +:+ a = s +:+ b -> a = b.
Proof.
  induction s as [|c s IH]; [trivial|]. intros H. apply IH. injection H. trivial.
Qed.

(** The photo URL and the sound URL of an asset differ. *)
Lemma photoURL_neq_soundURL (mlAssetID : string) :
  ebird.photoURL mlAssetID <> ebird.soundURL mlAssetID.
Proof.
  unfold ebird.photoURL, ebird.soundURL. intros H.
  apply append_inj_l, append_inj_l in H. discriminate H.
Qed.

Lemma requestsTo_cons (url u : string) (trace : list string) :
  ebird.requestsTo url (u :: trace)
  = ((if decide (u = url) then 1 else 0) + ebird.requestsTo url trace)%nat.
Proof.
  unfold ebird.requestsTo. rewrite filter_cons. case_decide; reflexivity.
Qed.

Lemma requestsTo_photo_only (mlAssetID : string) :
  ebird.requestsTo (ebird.soundURL mlAssetID) [ebird.photoURL mlAssetID] = 0%nat.
Proof.
  rewrite requestsTo_cons. case_decide as H; [|reflexivity].
  destruct (photoURL_neq_soundURL _ H).
Qed.

Lemma requestsTo_photo_then_sound (mlAssetID : string) :
  ebird.requestsTo (ebird.soundURL mlAssetID)
    [ebird.photoURL mlAssetID; ebird.soundURL mlAssetID] = 1%nat.
Proof.
  rewrite !requestsTo_cons. case_decide as H; [destruct (photoURL_neq_soundURL _ H)|].
  case_decide; [reflexivity | congruence].
Qed.

Section AssetProbes.
Variable http_Get : string -> ebird.Response + string.
Variable os_CreateTemp : string + string.
Variable io_Copy : string -> option string.
Variable tmpFile_Seek : option string.
Variable tmpFile_Read : string -> string + string.
Variable DetectContentType : string -> string.
Variable ExtensionsByType : string -> list string + string.
Variable os_Rename : string -> string -> option string.

Local Abbreviation download :=
  (ebird.DownloadMLAsset http_Get os_CreateTemp io_Copy tmpFile_Seek tmpFile_Read
    DetectContentType ExtensionsByType os_Rename).

(** C6: when the photo request is answered with 200, the photo URL is
    the only one requested; when it is answered with 404, the sound URL is
    requested exactly once, after it; with any other status the call fails
    at once with an error that names the photo URL and the status, and
    the sound URL is not requested. *)
Theorem DownloadMLAsset_probes (mlAssetID : string) (resp : ebird.Response) :
  http_Get (ebird.photoURL mlAssetID) = inl resp ->
  (ebird.StatusCode resp = 200%Z ->
     (download mlAssetID).2 = [ebird.photoURL mlAssetID]
     /\ ebird.requestsTo (ebird.soundURL mlAssetID) (download mlAssetID).2 = 0%nat)
  /\ (ebird.StatusCode resp = 404%Z ->
     (download mlAssetID).2 = [ebird.photoURL mlAssetID; ebird.soundURL mlAssetID]
     /\ ebird.requestsTo (ebird.soundURL mlAssetID) (download mlAssetID).2 = 1%nat)
  /\ (ebird.StatusCode resp <> 200%Z -> ebird.StatusCode resp <> 404%Z ->
     download mlAssetID
     = (("", false,
         Some (("DownloadMLAsset(" +:+ mlAssetID +:+ "): ")
               +:+ ebird.photoURL mlAssetID +:+ ": " +:+ ebird.Status resp)),
        [ebird.photoURL mlAssetID])
     /\ ebird.requestsTo (ebird.soundURL mlAssetID) (download mlAssetID).2 = 0%nat).
Proof.
  intros Hget. unfold ebird.DownloadMLAsset. rewrite Hget.
  unfold ebird.StatusOK, ebird.StatusNotFound.
  split; [|split].
  - intros H200. rewrite H200. cbn [Z.eqb Pos.eqb negb snd].
    split; [reflexivity | apply requestsTo_photo_only].
  - intros H404. rewrite H404. cbn [Z.eqb Pos.eqb].
    destruct (http_Get (ebird.soundURL mlAssetID)) as [resp'|err]; cbn [snd].
    + destruct (negb _); cbn [snd];
        (split; [reflexivity | apply requestsTo_photo_then_sound]).
    + split; [reflexivity | apply requestsTo_photo_then_sound].
  - intros H200 H404.
    destruct (Z.eqb_spec (ebird.StatusCode resp) 404); [contradiction|].
    destruct (Z.eqb_spec (ebird.StatusCode resp) 200); [contradiction|].
    cbn [negb snd]. split; [reflexivity | apply requestsTo_photo_only].
Qed.
End AssetProbes.

(** The theorem on the asset 123, with the photo request answered by 200,
    by 404 and by 500. *)
Lemma DownloadMLAsset_probes_witness :
  let download code status :=
    ebird.DownloadMLAsset (sample.assetServer code status) (inl "/tmp/birdsync1")
      (fun _ => None) None (fun body => inl body) (fun _ => "image/jpeg")
      (fun _ => inl [".jpg"]) (fun _ _ => None) "123" in
  (download 200%Z "200 OK").2 = [ebird.photoURL "123"]
  /\ ebird.requestsTo (ebird.soundURL "123") (download 404%Z "404 Not Found").2 = 1%nat
  /\ (download 500%Z "500 Internal Server Error").1.2
     = Some (("DownloadMLAsset(" +:+ "123" +:+ "): ")
             +:+ ebird.photoURL "123" +:+ ": " +:+ "500 Internal Server Error").
Proof.
  intros download. split; [|split].
  - destruct (DownloadMLAsset_probes (sample.assetServer 200 "200 OK")
                (inl "/tmp/birdsync1") (fun _ => None) None (fun body => inl body)
                (fun _ => "image/jpeg") (fun _ => inl [".jpg"]) (fun _ _ => None)
                "123" (ebird.mkResponse 200 "200 OK" "photo bytes") eq_refl)
      as [H _].
    destruct (H eq_refl) as [Htrace _]. exact Htrace.
  - destruct (DownloadMLAsset_probes (sample.assetServer 404 "404 Not Found")
                (inl "/tmp/birdsync1") (fun _ => None) None (fun body => inl body)
                (fun _ => "image/jpeg") (fun _ => inl [".jpg"]) (fun _ _ => None)
                "123" (ebird.mkResponse 404 "404 Not Found" "photo bytes") eq_refl)
      as [_ [H _]].
    destruct (H eq_refl) as [_ Hcount]. exact Hcount.
  - destruct (DownloadMLAsset_probes
                (sample.assetServer 500 "500 Internal Server Error")
                (inl "/tmp/birdsync1") (fun _ => None) None (fun body => inl body)
                (fun _ => "image/jpeg") (fun _ => inl [".jpg"]) (fun _ _ => None)
                "123" (ebird.mkResponse 500 "500 Internal Server Error" "photo bytes")
                eq_refl)
      as [_ [_ H]].
    destruct (H ltac:(discriminate) ltac:(discriminate)) as [Hres _].
    unfold download. rewrite Hres. reflexivity.
Defined.

(** ** DownloadObservations *)

Section Pagination.
Local Open Scope Z_scope.
Local Open Scope list_scope.

Variable Result : Type.
Variable exchange : inat.Request -> inat.Observations Result + string.
Variable inatUserID : string.
Variable d1str d2str : option string.
Variable fieldNames : list string.

Local Abbreviation request := (inat.request inatUserID d1str d2str fieldNames).
Local Abbreviation body := (inat.body Result exchange inatUserID d1str d2str fieldNames).
Local Abbreviation loop := (inat.loop Result exchange inatUserID d1str d2str fieldNames).
Local Abbreviation start := (inat.start Result).
Local Abbreviation reaches := (inat.reaches Result exchange inatUserID d1str d2str fieldNames).
Local Abbreviation DownloadObservations :=
  (inat.DownloadObservations Result exchange inatUserID d1str d2str fieldNames).
Local Abbreviation terminates :=
  (inat.terminates Result exchange inatUserID d1str d2str fieldNames).
Local Abbreviation pageResults :=
  (inat.pageResults Result exchange inatUserID d1str d2str fieldNames).
Local Abbreviation curPage := (inat.curPage Result).
Local Abbreviation results := (inat.results Result).
Local Abbreviation totalResults := (inat.totalResults Result).
Local Abbreviation sent := (inat.sent Result).

Local Abbreviation captured := (inat.captured Result).
Local Abbreviation progress :=
  (inat.progress Result exchange inatUserID d1str d2str fieldNames).

Lemma loop_S fuel s :
  loop (S fuel) s =
  match body s with
  | inat.Continue _ s' => loop fuel s'
  | inat.Break _ results sent => Some (inat.Return results, sent)
  | inat.Exit _ err sent => Some (inat.Fatal err, sent)
  end.
Proof. reflexivity. Qed.

(** A page that reports no results ends the loop with what was gathered. *)
Lemma body_zero_total s obs :
  exchange (request (inat.curPage _ s)) = inl obs -> inat.TotalResults obs = 0 ->
  body s = inat.Break _ (inat.results _ s) (inat.sent _ s ++ [request (inat.curPage _ s)]).
Proof.
  intros Hx H0. unfold inat.body. rewrite Hx, H0. reflexivity.
Qed.

(** A page that reports results is added to what was gathered; the loop
    ends if that reaches the captured total. *)
Lemma body_results s obs :
  exchange (request (curPage s)) = inl obs -> inat.TotalResults obs <> 0 ->
  body s =
  if Z.of_nat (length (results s ++ inat.Results obs)) >=? captured s obs
  then inat.Break _ (results s ++ inat.Results obs) (sent s ++ [request (curPage s)])
  else inat.Continue _
         (inat.mkState _ (S (curPage s)) (results s ++ inat.Results obs)
            (captured s obs) (sent s ++ [request (curPage s)])).
Proof.
  intros Hx H0. unfold inat.body, inat.captured. rewrite Hx.
  destruct (Z.eqb_spec (inat.TotalResults obs) 0); [contradiction|reflexivity].
Qed.

(** More fuel does not change an outcome. *)
Lemma loop_more fuel k s out :
  loop fuel s = Some out -> loop (fuel + k) s = Some out.
Proof.
  revert s. induction fuel as [|fuel IH]; intros s H; [discriminate H|].
  change (S fuel + k)%nat with (S (fuel + k)). rewrite loop_S in *.
  destruct (body s); auto.
Qed.

(** What a turn that goes on to the next page has seen and done. *)
Lemma body_Continue s s' :
  body s = inat.Continue _ s' ->
  exists obs,
    exchange (request (curPage s)) = inl obs
    /\ inat.TotalResults obs <> 0
    /\ Z.of_nat (length (results s ++ inat.Results obs)) < captured s obs
    /\ s' = inat.mkState _ (S (curPage s)) (results s ++ inat.Results obs)
              (captured s obs) (sent s ++ [request (curPage s)]).
Proof.
  unfold inat.body, inat.captured.
  destruct (exchange _) as [obs|err]; [|discriminate].
  destruct (Z.eqb_spec (inat.TotalResults obs) 0); [discriminate|].
  destruct (Z.geb_spec (Z.of_nat (length (results s ++ inat.Results obs)))
              (if totalResults s =? 0 then inat.TotalResults obs else totalResults s));
    [discriminate|].
  intros [= <-]. exists obs. repeat split; auto.
Qed.

Lemma reaches_page s : reaches s -> (1 <= curPage s)%nat.
Proof.
  induction 1 as [|s s' Hs IH Hb]; [simpl; lia|].
  apply body_Continue in Hb as (obs & _ & _ & _ & ->). simpl. lia.
Qed.

(** After the first page the captured total is never zero again. *)
Lemma reaches_total s : reaches s -> (1 < curPage s)%nat -> totalResults s <> 0.
Proof.
  induction 1 as [|s s' Hs IH Hb]; [simpl; lia|]. intros _.
  apply body_Continue in Hb as (obs & _ & Hobs & _ & ->). simpl. unfold inat.captured.
  destruct (Z.eqb_spec (totalResults s) 0); assumption.
Qed.

(** The loop run from the start gets to [s] and goes on from there. *)
Lemma reaches_loop s : reaches s ->
  forall k, loop (curPage s - 1 + k) start = loop k s.
Proof.
  induction 1 as [|s s' Hs IH Hb]; intros k; [reflexivity|].
  pose proof (reaches_page s Hs) as Hp.
  pose proof Hb as Hb'.
  apply body_Continue in Hb' as (obs & _ & _ & _ & ->).
  cbn [inat.curPage].
  replace (S (curPage s) - 1 + k)%nat with (curPage s - 1 + S k)%nat by lia.
  rewrite IH, loop_S, Hb. reflexivity.
Qed.

(** What has been gathered and sent when the loop is at a page: the
    results of the pages before it, in order, and one request per page. *)
Lemma reaches_gathered s : reaches s ->
  results s = flat_map pageResults (seq 1 (curPage s - 1))
  /\ sent s = map (fun p => request p) (seq 1 (curPage s - 1)).
Proof.
  induction 1 as [|s s' Hs [IHr IHs] Hb]; [split; reflexivity|].
  pose proof (reaches_page s Hs) as Hp.
  apply body_Continue in Hb as (obs & Hx & _ & _ & ->).
  cbn [inat.curPage inat.results inat.sent].
  replace (S (curPage s) - 1)%nat with (S (curPage s - 1)) by lia.
  rewrite seq_S, flat_map_app, map_app, <- IHr, <- IHs.
  replace (1 + (curPage s - 1))%nat with (curPage s) by lia.
  cbn [flat_map map]. unfold inat.pageResults. rewrite Hx, app_nil_r.
  split; reflexivity.
Qed.

(** C7: when the loop is at a page (the first one or, after a first page
    with a nonzero total, a later one) and that page reports a total of
    zero, the call stops there, after one request per page, and returns the
    results gathered from the earlier pages. *)
Theorem zero_total_on_later_page_stops (s : inat.state Result)
    (obs : inat.Observations Result) :
  reaches s ->
  exchange (request (curPage s)) = inl obs ->
  inat.TotalResults obs = 0 ->
  DownloadObservations (curPage s)
    = Some (inat.Return (results s), sent s ++ [request (curPage s)])
  /\ results s = flat_map pageResults (seq 1 (curPage s - 1))
  /\ length (sent s ++ [request (curPage s)]) = curPage s.
Proof.
  intros Hs Hx H0. pose proof (reaches_page s Hs) as Hp.
  destruct (reaches_gathered s Hs) as [Hr Hsent].
  split; [|split; [exact Hr|]].
  - unfold inat.DownloadObservations.
    replace (curPage s) with (curPage s - 1 + 1)%nat at 1 by lia.
    rewrite (reaches_loop s Hs 1), loop_S, (body_zero_total s obs Hx H0). reflexivity.
  - rewrite length_app, Hsent, length_map, length_seq. simpl. lia.
Qed.


(** C5: with page size 200, a first page that reports a total of zero
    gives an empty result after exactly one request; a total of 250 served
    as 200 results on page 1 and 50 on page 2 gives all 250 results after
    exactly two requests. *)
Theorem pagination_examples :
  (forall obs,
     exchange (request 1) = inl obs -> inat.TotalResults obs = 0 ->
     DownloadObservations 1 = Some (inat.Return [], [request 1]))
  /\ (forall obs1 obs2,
     exchange (request 1) = inl obs1 -> inat.TotalResults obs1 = 250 ->
     length (inat.Results obs1) = 200%nat ->
     exchange (request 2) = inl obs2 -> inat.TotalResults obs2 = 250 ->
     length (inat.Results obs2) = 50%nat ->
     DownloadObservations 2
       = Some (inat.Return (inat.Results obs1 ++ inat.Results obs2),
               [request 1; request 2])
     /\ length (inat.Results obs1 ++ inat.Results obs2) = 250%nat)
  /\ (forall p, inat.per_page (request p) = 200%nat).
Proof.
  split; [|split].
  - intros obs Hx H0. unfold inat.DownloadObservations.
    rewrite loop_S, (body_zero_total start obs Hx H0). reflexivity.
  - intros obs1 obs2 Hx1 Ht1 Hl1 Hx2 Ht2 Hl2.
    unfold inat.DownloadObservations.
    rewrite loop_S, (body_results start obs1 Hx1) by lia.
    unfold inat.captured. cbn [inat.start inat.totalResults inat.results inat.sent
                          inat.curPage Z.eqb app].
    rewrite Ht1, Hl1. change (Z.of_nat 200 >=? 250) with false. cbv iota.
    rewrite loop_S, body_results with (obs := obs2) by (assumption || lia).
    unfold inat.captured. cbn [inat.totalResults inat.results inat.sent inat.curPage Z.eqb].
    rewrite length_app, Hl1, Hl2. change (Z.of_nat (200 + 50) >=? 250) with true.
    cbv iota. split; reflexivity.
  - reflexivity.
Qed.

Lemma loop_progress (n : nat) : progress -> forall s,
  totalResults s <> 0 ->
  totalResults s - Z.of_nat (length (results s)) <= Z.of_nat n ->
  exists out, loop (S n) s = Some out.
Proof.
  intros Hprog. induction n as [|n IH]; intros s Htot Hgap; rewrite loop_S;
    destruct (body s) as [s'|rs tr|err tr] eqn:Hb; eauto;
    apply body_Continue in Hb as (obs & Hx & Hobs & Hlt & ->);
    pose proof (Hprog _ _ Hx Hobs) as Hne;
    assert (Hcap : captured s obs = totalResults s)
      by (unfold inat.captured; destruct (Z.eqb_spec (totalResults s) 0); [contradiction|reflexivity]);
    rewrite Hcap, length_app in Hlt;
    assert (1 <= length (inat.Results obs))%nat
      by (destruct (inat.Results obs); [contradiction|simpl; lia]).
  - lia.
  - apply IH; cbn [inat.totalResults inat.results]; rewrite ?Hcap, ?length_app; [assumption | lia].
Qed.

(** C2, as the code has it: the call comes to an end for every response
    sequence in which each page that reports a nonzero total carries at
    least one result; and when it returns, the last page either reported a
    total of zero or brought the gathered results up to the total captured
    on the first page. *)
Lemma body_Break s rs tr :
  body s = inat.Break _ rs tr ->
  exists obs,
    exchange (request (curPage s)) = inl obs
    /\ tr = sent s ++ [request (curPage s)]
    /\ (inat.TotalResults obs = 0 /\ rs = results s
        \/ inat.TotalResults obs <> 0 /\ rs = results s ++ inat.Results obs
           /\ captured s obs <= Z.of_nat (length rs)).
Proof.
  unfold inat.body, inat.captured.
  destruct (exchange _) as [obs|err]; [|discriminate].
  destruct (Z.eqb_spec (inat.TotalResults obs) 0) as [H0|H0].
  - intros [= <- <-]. exists obs. auto.
  - destruct (Z.geb_spec (Z.of_nat (length (results s ++ inat.Results obs)))
                (if totalResults s =? 0 then inat.TotalResults obs else totalResults s));
      [|discriminate].
    intros [= <- <-]. exists obs. split; [reflexivity|]. split; [reflexivity|].
    right. repeat split; auto; lia.
Qed.

(** Where a return comes from. *)
Lemma loop_Return fuel : forall s rs tr,
  reaches s -> loop fuel s = Some (inat.Return rs, tr) ->
  exists s' obs,
    reaches s' /\ exchange (request (curPage s')) = inl obs
    /\ tr = sent s' ++ [request (curPage s')]
    /\ (inat.TotalResults obs = 0 /\ rs = results s'
        \/ inat.TotalResults obs <> 0 /\ rs = results s' ++ inat.Results obs
           /\ captured s' obs <= Z.of_nat (length rs)).
Proof.
  induction fuel as [|fuel IH]; intros s rs tr Hs H; [discriminate H|].
  rewrite loop_S in H. destruct (body s) as [s1|rs1 tr1|err tr1] eqn:Hb.
  - apply (IH s1); [econstructor; eassumption | exact H].
  - injection H as <- <-. apply body_Break in Hb as (obs & Hx & Htr & Hstop).
    exists s, obs. auto.
  - discriminate H.
Qed.

Theorem DownloadObservations_terminates_with_progress :
  progress ->
  terminates
  /\ forall fuel rs tr,
       DownloadObservations fuel = Some (inat.Return rs, tr) ->
       exists s obs,
         reaches s /\ exchange (request (curPage s)) = inl obs
         /\ tr = sent s ++ [request (curPage s)]
         /\ (inat.TotalResults obs = 0 /\ rs = results s
             \/ inat.TotalResults obs <> 0 /\ rs = results s ++ inat.Results obs
                /\ captured s obs <= Z.of_nat (length rs)).
Proof.
  intros Hprog. split.
  - unfold inat.terminates, inat.DownloadObservations.
    destruct (body start) as [s1|rs tr|err tr] eqn:Hb.
    + pose proof Hb as Hb'.
      apply body_Continue in Hb' as (obs & Hx & Hobs & Hlt & Hs1).
      assert (Htot : totalResults s1 <> 0) by (subst s1; exact Hobs).
      destruct (loop_progress
                  (Z.to_nat (totalResults s1 - Z.of_nat (length (results s1))))
                  Hprog s1 Htot ltac:(lia)) as [out Hout].
      eexists (S (S _)), out. rewrite loop_S, Hb. exact Hout.
    + exists 1%nat. eexists. rewrite loop_S, Hb. reflexivity.
    + exists 1%nat. eexists. rewrite loop_S, Hb. reflexivity.
  - intros fuel rs tr. apply loop_Return. constructor.
Qed.

End Pagination.

(** The theorem on a server that reports a total of 5 and two results on
    page 1 and a total of 0 on page 2. *)
Lemma zero_total_on_later_page_stops_witness :
  inat.DownloadObservations nat (sample.pages sample.zeroLater) "user" None None [] 2
  = Some (inat.Return [1; 2]%nat,
          [inat.request "user" None None [] 1; inat.request "user" None None [] 2]).
Proof.
  pose (s := inat.mkState nat 2 [1; 2]%nat 5%Z [inat.request "user" None None [] 1]).
  assert (Hs : inat.reaches nat (sample.pages sample.zeroLater) "user" None None [] s).
  { apply (inat.reaches_turn nat _ "user" None None [] (inat.start nat) s).
    - apply inat.reaches_start.
    - reflexivity. }
  destruct (zero_total_on_later_page_stops nat (sample.pages sample.zeroLater)
              "user" None None [] s (sample.zeroLater 2) Hs eq_refl eq_refl)
    as [H _].
  exact H.
Defined.

(** The theorem on a server without results, and on one that serves 250
    results as 200 and 50. *)
Lemma pagination_examples_witness :
  inat.DownloadObservations nat (sample.pages sample.noResults) "user" None None [] 1
  = Some (inat.Return [], [inat.request "user" None None [] 1])
  /\ inat.DownloadObservations nat (sample.pages sample.twoPages) "user" None None [] 2
     = Some (inat.Return (seq 0 200 ++ seq 200 50)%list,
             [inat.request "user" None None [] 1; inat.request "user" None None [] 2]).
Proof.
  split.
  - destruct (pagination_examples nat (sample.pages sample.noResults)
                "user" None None []) as [H _].
    exact (H (sample.noResults 1) eq_refl eq_refl).
  - destruct (pagination_examples nat (sample.pages sample.twoPages)
                "user" None None []) as [_ [H _]].
    destruct (H (sample.twoPages 1) (sample.twoPages 2)
                eq_refl eq_refl eq_refl eq_refl eq_refl eq_refl) as [Hrun _].
    exact Hrun.
Defined.

Lemma steady_progress :
  inat.progress nat (sample.pages sample.steady) "user" None None [].
Proof.
  intros p observations Hx _. injection Hx as <-. discriminate.
Defined.

(** The theorem on a server that reports a total of 3 and one result on
    every page. *)
Lemma DownloadObservations_terminates_with_progress_witness :
  inat.terminates nat (sample.pages sample.steady) "user" None None [].
Proof.
  destruct (DownloadObservations_terminates_with_progress nat
              (sample.pages sample.steady) "user" None None [] steady_progress)
    as [H _].
  exact H.
Defined.

(** On the stalled server the loop, once past page 1, never leaves. *)
Lemma stalled_loop (fuel : nat) : forall s,
  (2 <= inat.curPage nat s)%nat -> inat.results nat s = [1; 2]%nat ->
  inat.totalResults nat s = 5%Z ->
  inat.loop nat (sample.pages sample.stalled) "user" None None [] fuel s = None.
Proof.
  induction fuel as [|fuel IH]; intros s Hp Hr Ht; [reflexivity|].
  cbn [inat.loop]. unfold inat.body, inat.captured, sample.pages.
  cbn [inat.page inat.request]. rewrite Hr, Ht.
  destruct (inat.curPage nat s) as [|[|p]] eqn:Hpage; [lia | lia |].
  cbn [sample.stalled inat.TotalResults inat.Results Z.eqb].
  change (Z.of_nat (length ([1; 2]%nat ++ [])%list) >=? 5)%Z with false. cbv iota.
  apply IH; cbn [inat.curPage inat.results inat.totalResults]; [lia | reflexivity | reflexivity].
Qed.

(** C2 as stated fails: a server that reports a total of 5 on every page
    and serves two results on page 1 and none afterwards keeps the loop
    running for ever. *)
Lemma DownloadObservations_stalled_runs_forever :
  ~ inat.terminates nat (sample.pages sample.stalled) "user" None None [].
Proof.
  intros [fuel [out H]]. unfold inat.DownloadObservations in H.
  destruct fuel as [|fuel]; [discriminate H|].
  assert (Hb : inat.body nat (sample.pages sample.stalled) "user" None None []
                 (inat.start nat)
               = inat.Continue nat
                   (inat.mkState nat 2 [1; 2]%nat 5%Z
                      [inat.request "user" None None [] 1]))
    by reflexivity.
  rewrite loop_S, Hb in H.
  rewrite stalled_loop in H; [discriminate H | | |]; cbn; (lia || reflexivity).
Qed.

(** * More properties of the code *)

(** ** The header map and the record stream *)

Section Columns.
Local Open Scope list_scope.


Lemma fieldFrom_lookup_None (header : list string) : forall i (field : gmap string nat) key,
  ebird.fieldFrom i header field !! key = None <-> (key ∉ header) /\ field !! key = None.
Proof.
  induction header as [|f rest IH]; intros i field key; cbn [ebird.fieldFrom].
  - split; [intros H; split; [apply not_elem_of_nil | exact H] | intros [_ H]; exact H].
  - rewrite IH, not_elem_of_cons. destruct (decide (f = key)) as [->|Hne].
    + rewrite lookup_insert_eq. split; [intros [_ H]; discriminate H | intros [[H _] _]; congruence].
    + rewrite lookup_insert_ne by exact Hne. split; [intros [? ?] | intros [[? ?] ?]]; auto.
Qed.

Lemma fieldFrom_lookup_Some (header : list string) : forall i (field : gmap string nat) key n,
  ebird.fieldFrom i header field !! key = Some n <->
  (exists j, n = (i + j)%nat /\ header !! j = Some key
             /\ forall j', (j < j')%nat -> header !! j' <> Some key)
  \/ ((key ∉ header) /\ field !! key = Some n).
Proof.
  induction header as [|f rest IH]; intros i field key n; cbn [ebird.fieldFrom].
  - split.
    + intros H. right. split; [apply not_elem_of_nil | exact H].
    + intros [(j & _ & Hj & _)|[_ H]]; [discriminate Hj | exact H].
  - rewrite IH. split.
    + intros [(j & -> & Hj & Hlast)|[Hnot Hf]].
      * left. exists (S j). split; [lia|]. split; [exact Hj|].
        intros [|j'] Hlt; [lia|]. apply Hlast. lia.
      * destruct (decide (f = key)) as [->|Hne].
        -- rewrite lookup_insert_eq in Hf. injection Hf as <-.
           left. exists 0%nat. split; [lia|]. split; [reflexivity|].
           intros [|j'] Hlt; [lia|]. cbn. intros Hj. apply Hnot.
           apply list_elem_of_lookup. eauto.
        -- rewrite lookup_insert_ne in Hf by exact Hne. right.
           rewrite not_elem_of_cons. auto.
    + intros [(j & -> & Hj & Hlast)|[Hnot Hf]].
      * destruct j as [|j].
        -- injection Hj as ->. right. split.
           ++ intros Hin. apply list_elem_of_lookup in Hin as [j' Hj'].
              apply (Hlast (S j')); [lia | exact Hj'].
           ++ rewrite lookup_insert_eq. f_equal. lia.
        -- left. exists j. split; [lia|]. split; [exact Hj|].
           intros j' Hlt. apply (Hlast (S j')). lia.
      * apply not_elem_of_cons in Hnot as [Hne Hnot]. right. split; [exact Hnot|].
        rewrite lookup_insert_ne by congruence. exact Hf.
Qed.

(** X1: the header map holds a column name iff the header row has it, and
    maps it to the index of its last occurrence there. *)
Theorem makeField_last_occurrence (header : list string) (key : string) :
  (ebird.makeField header !! key = None <-> key ∉ header)
  /\ forall i, ebird.makeField header !! key = Some i <->
       header !! i = Some key
       /\ forall j, (i < j)%nat -> header !! j <> Some key.
Proof.
  unfold ebird.makeField. split.
  - rewrite fieldFrom_lookup_None, lookup_empty. tauto.
  - intros i. rewrite fieldFrom_lookup_Some, lookup_empty. split.
    + intros [(j & -> & Hj & Hlast)|[_ H]]; [auto | discriminate H].
    + intros [Hi Hlast]. left. exists i. auto.
Qed.

Lemma decode_Line (field : gmap string nat) (i : nat) (rec : list string) (r : ebird.Record) :
  ebird.decode field i rec = Some r -> ebird.Line r = (Z.of_nat i + 2)%Z.
Proof.
  unfold ebird.decode.
  repeat match goal with
  | |- context [ebird.stringField field rec ?k] =>
      let v := fresh "v" in let Hv := fresh "Hv" in
      destruct (stringField_total field rec k) as [v Hv]; rewrite Hv; clear Hv
  end.
  cbn [mbind option_bind]. intros [= <-]. reflexivity.
Qed.

(** X2: the field of a decoded Record that is read from a column named in
    the header is the cell of the row under the last occurrence of that
    name, or the empty string when the row ends before it. *)
Theorem decode_reads_named_column (header rec : list string) (n i : nat)
    (key : string) (proj : ebird.Record -> string) :
  In (key, proj) ebird.columns ->
  header !! i = Some key ->
  (forall j, (i < j)%nat -> header !! j <> Some key) ->
  proj <$> ebird.decode (ebird.makeField header) n rec = Some (default "" (rec !! i)).
Proof.
  intros Hin Hi Hlast.
  destruct (decode_total (ebird.makeField header) n rec) as [r Hr]. rewrite Hr. cbn.
  f_equal.
  pose proof (decode_fields _ _ _ _ Hr _ _ Hin) as Hsf.
  assert (Hf : ebird.makeField header !! key = Some i)
    by (apply makeField_last_occurrence; auto).
  unfold ebird.stringField, ebird.mapIndex in Hsf. rewrite Hf in Hsf.
  cbn [default from_option id] in Hsf. revert Hsf.
  destruct (Nat.ltb_spec i (length rec)) as [Hlt|Hge]; intros Hsf.
  - rewrite Hsf. reflexivity.
  - rewrite (lookup_ge_None_2 rec i Hge). cbn. congruence.
Qed.

Lemma rangeRecs_collect (field : gmap string nat) (recs : list (list string)) :
  forall (i : nat) (out : list ebird.Record),
  exists rs,
    ebird.rangeRecs field i recs sample.collect out = Some (out ++ rs)
    /\ length rs = length recs
    /\ forall k rec, recs !! k = Some rec ->
         exists r, rs !! k = Some r /\ ebird.decode field (i + k) rec = Some r.
Proof.
  induction recs as [|rec rest IH]; intros i out; cbn [ebird.rangeRecs].
  - exists []. rewrite app_nil_r. split; [reflexivity|]. split; [reflexivity|].
    intros k rec H. discriminate H.
  - destruct (decode_total field i rec) as [r Hr]. rewrite Hr.
    cbn [sample.collect].
    destruct (IH (S i) (out ++ [r])) as (rs & Hrun & Hlen & Hrows).
    exists (r :: rs). rewrite Hrun, <- app_assoc. split; [reflexivity|].
    split; [cbn; lia|].
    intros [|k] rec' Hk.
    + injection Hk as <-. exists r. rewrite Nat.add_0_r. auto.
    + destruct (Hrows k rec' Hk) as (r' & Hr' & Hdec). exists r'.
      replace (i + S k)%nat with (S i + k)%nat by lia. auto.
Qed.

Lemma rangeRecs_collectUpTo (field : gmap string nat) (recs : list (list string)) (k : nat) :
  forall (i : nat) (out rs : list ebird.Record),
  ebird.rangeRecs field i recs sample.collect out = Some (out ++ rs) ->
  (length out < k)%nat ->
  ebird.rangeRecs field i recs (sample.collectUpTo k) out
  = Some (out ++ take (k - length out) rs).
Proof.
  induction recs as [|rec rest IH]; intros i out rs; cbn [ebird.rangeRecs].
  - intros [= H] _. rewrite <- (app_nil_r out) in H at 1.
    apply app_inv_head in H. subst rs. rewrite take_nil, app_nil_r. reflexivity.
  - destruct (decode_total field i rec) as [r Hr]. rewrite Hr.
    cbn [sample.collect sample.collectUpTo]. intros Hrun Hlt.
    destruct (rangeRecs_collect field rest (S i) (out ++ [r])) as (rs' & Hrun' & _ & _).
    rewrite Hrun' in Hrun. injection Hrun as Hrun.
    rewrite <- app_assoc in Hrun. apply app_inv_head in Hrun. subst rs.
    rewrite length_app. cbn [length].
    destruct (Nat.ltb_spec (length out + 1) k) as [Hmore|Hstop].
    + rewrite (IH (S i) (out ++ [r]) rs' Hrun') by (rewrite length_app; cbn; lia).
      rewrite length_app. cbn [length]. rewrite <- app_assoc. cbn [app].
      replace (k - length out)%nat with (S (k - (length out + 1))) by lia.
      reflexivity.
    + replace (k - length out)%nat with 1%nat by lia. reflexivity.
Qed.

Section RecordStream.
Variable File : Type.
Variable os_Open : string -> File + string.
Variable csv_ReadAll : File -> list (list string) + string.
Local Abbreviation Records := (ebird.Records File os_Open csv_ReadAll).

(** X3: for a file that opens and parses with a header row, a consumer that
    takes everything receives one Record per data row, in file order, the
    k-th of them (from 0) decoded from row k with line number k + 2. *)
Theorem Records_yields_every_row (filename : string) (f : File)
    (header : list string) (recs : list (list string)) :
  os_Open filename = inl f -> csv_ReadAll f = inl (header :: recs) ->
  exists seq rs,
    Records filename = ebird.Return (seq, None)
    /\ seq (list ebird.Record) sample.collect [] = Some rs
    /\ length rs = length recs
    /\ forall k rec, recs !! k = Some rec ->
         exists r, rs !! k = Some r
                   /\ ebird.decode (ebird.makeField header) k rec = Some r
                   /\ ebird.Line r = (Z.of_nat k + 2)%Z.
Proof.
  intros Hopen Hread. unfold ebird.Records. rewrite Hopen, Hread.
  destruct (rangeRecs_collect (ebird.makeField header) recs 0 [])
    as (rs & Hrun & Hlen & Hrows).
  eexists _, rs. split; [reflexivity|]. split; [exact Hrun|]. split; [exact Hlen|].
  intros k rec Hk. destruct (Hrows k rec Hk) as (r & Hr & Hdec).
  exists r. split; [exact Hr|]. split; [exact Hdec|]. exact (decode_Line _ _ _ _ Hdec).
Qed.

(** X4: a consumer that leaves the loop once it holds k records (k at
    least 1) receives exactly the first k Records of the file, or all of
    them if there are fewer. *)
Theorem Records_stops_when_consumer_stops (filename : string) (f : File)
    (header : list string) (recs : list (list string)) (k : nat) :
  os_Open filename = inl f -> csv_ReadAll f = inl (header :: recs) ->
  (1 <= k)%nat ->
  exists seq rs,
    Records filename = ebird.Return (seq, None)
    /\ seq (list ebird.Record) sample.collect [] = Some rs
    /\ seq (list ebird.Record) (sample.collectUpTo k) [] = Some (take k rs).
Proof.
  intros Hopen Hread Hk. unfold ebird.Records. rewrite Hopen, Hread.
  destruct (rangeRecs_collect (ebird.makeField header) recs 0 [])
    as (rs & Hrun & _ & _).
  eexists _, rs. split; [reflexivity|]. split; [exact Hrun|].
  rewrite (rangeRecs_collectUpTo _ recs k 0 [] rs Hrun) by (cbn; lia).
  cbn [length app]. rewrite Nat.sub_0_r. reflexivity.
Qed.

End RecordStream.

End Columns.

(** X2 on the sample file: the short second row has no cell under
    Scientific Name, and the cell Gadwall under Common Name. *)
Lemma decode_reads_named_column_witness :
  ebird.ScientificName <$> ebird.decode (ebird.makeField (hd [] sample.csvRows)) 1
                             ["S2"; "Gadwall"] = Some ""
  /\ ebird.CommonName <$> ebird.decode (ebird.makeField (hd [] sample.csvRows)) 1
                            ["S2"; "Gadwall"] = Some "Gadwall".
Proof.
  split.
  - apply (decode_reads_named_column (hd [] sample.csvRows) ["S2"; "Gadwall"] 1 2
             "Scientific Name" ebird.ScientificName).
    + right; right; left; reflexivity.
    + reflexivity.
    + intros [|[|[|j]]] Hj; [lia | lia | lia | discriminate].
  - apply (decode_reads_named_column (hd [] sample.csvRows) ["S2"; "Gadwall"] 1 1
             "Common Name" ebird.CommonName).
    + right; left; reflexivity.
    + reflexivity.
    + intros [|[|[|j]]] Hj; [lia | lia | discriminate | discriminate].
Defined.

(** X3 on the sample file. *)
Lemma Records_yields_every_row_witness :
  exists seq rs,
    ebird.Records unit (fun _ => inl tt) (fun _ => inl sample.csvRows) "MyEBirdData.csv"
    = ebird.Return (seq, None)
    /\ seq (list ebird.Record) sample.collect [] = Some rs
    /\ length rs = 2%nat
    /\ forall k rec, tl sample.csvRows !! k = Some rec ->
         exists r, rs !! k = Some r
                   /\ ebird.decode (ebird.makeField (hd [] sample.csvRows)) k rec = Some r
                   /\ ebird.Line r = (Z.of_nat k + 2)%Z.
Proof.
  exact (Records_yields_every_row unit (fun _ => inl tt) (fun _ => inl sample.csvRows)
           "MyEBirdData.csv" tt (hd [] sample.csvRows) (tl sample.csvRows)
           eq_refl eq_refl).
Defined.

(** X4 on the sample file, for a consumer that stops at the first record. *)
Lemma Records_stops_when_consumer_stops_witness :
  exists seq rs,
    ebird.Records unit (fun _ => inl tt) (fun _ => inl sample.csvRows) "MyEBirdData.csv"
    = ebird.Return (seq, None)
    /\ seq (list ebird.Record) sample.collect [] = Some rs
    /\ seq (list ebird.Record) (sample.collectUpTo 1) [] = Some (take 1 rs).
Proof.
  exact (Records_stops_when_consumer_stops unit (fun _ => inl tt)
           (fun _ => inl sample.csvRows) "MyEBirdData.csv" tt
           (hd [] sample.csvRows) (tl sample.csvRows) 1 eq_refl eq_refl (le_n 1)).
Defined.

(** ** More on Record.Observed *)

Section MoreTimestamps.
Import text.
Local Open Scope Z_scope.

Ltac push_append := rewrite ?append_cons, ?append_nil.

Ltac chunk :=
  rewrite parseLoop_S;
  match goal with
  | |- context [time.nextStdChunk ?L] =>
      let t := eval vm_compute in (time.nextStdChunk L) in
      change (time.nextStdChunk L) with t
  end;
  cbv beta iota zeta.

Ltac std_ok := cbv beta iota zeta; cbn [negb String.eqb].

Lemma isDigit_dash : time.isDigit "-" = false. Proof. reflexivity. Qed.

Lemma digitVal_range c : time.isDigit c = true -> 0 <= time.digitVal c <= 9.
Proof.
  unfold time.isDigit, time.digitVal. intros H.
  apply andb_true_iff in H as [H1 H2].
  apply N.leb_le in H1, H2. lia.
Qed.

Lemma getnum_range s fixed n rest :
  time.getnum s fixed = Some (n, rest) -> 0 <= n <= 99.
Proof.
  unfold time.getnum. destruct s as [|c0 r0]; [discriminate|].
  destruct (time.isDigit c0) eqn:H0; [|discriminate].
  pose proof (digitVal_range c0 H0) as R0.
  destruct r0 as [|c1 r1].
  - destruct fixed; [discriminate|]. intros [= <- _]. lia.
  - destruct (time.isDigit c1) eqn:H1.
    + pose proof (digitVal_range c1 H1) as R1. intros [= <- _]. lia.
    + destruct fixed; [discriminate|]. intros [= <- _]. lia.
Qed.

Lemma atoi4_range c0 c1 c2 c3 y : time.isDigit c0 = true ->
  time.atoi (String c0 (String c1 (String c2 (String c3 "")))) = Some y ->
  0 <= y <= 9999.
Proof.
  intros H0. rewrite atoi_digit_first by exact H0. cbn [time.leadingInt].
  rewrite H0. pose proof (digitVal_range c0 H0) as R0.
  destruct (time.isDigit c1) eqn:H1; [|discriminate].
  pose proof (digitVal_range c1 H1) as R1.
  destruct (time.isDigit c2) eqn:H2; [|discriminate].
  pose proof (digitVal_range c2 H2) as R2.
  destruct (time.isDigit c3) eqn:H3; [|discriminate].
  pose proof (digitVal_range c3 H3) as R3.
  intros [= <-]. lia.
Qed.

Lemma parseStd_inRange st value v v' value' :
  inRange v -> time.parseStd st value v = (v', value', "", false) -> inRange v'.
Proof.
  intros (Hy & Hm & Hh & Hmi). unfold inRange.
  destruct st; cbn [time.parseStd].
  - intros [= <- _]. auto.
  - destruct value as [|c0 [|c1 [|c2 [|c3 rest]]]]; try discriminate.
    destruct (time.isDigit c0) eqn:H0; [|discriminate]. cbn [negb].
    destruct (time.atoi _) as [y|] eqn:Hat; [|discriminate].
    intros [= <- _]. cbn. pose proof (atoi4_range _ _ _ _ _ H0 Hat). auto.
  - destruct (time.getnum value false) as [[m r]|] eqn:Hg; [|discriminate].
    destruct (Z.leb_spec m 0); [discriminate|].
    destruct (Z.ltb_spec 12 m); [discriminate|].
    intros [= <- _]. cbn. repeat split; auto; lia.
  - destruct (time.getnum value true) as [[m r]|] eqn:Hg; [|discriminate].
    destruct (Z.leb_spec m 0); [discriminate|].
    destruct (Z.ltb_spec 12 m); [discriminate|].
    intros [= <- _]. cbn. repeat split; auto; lia.
  - destruct (time.getnum value false) as [[d r]|] eqn:Hg; [|discriminate].
    intros [= <- _]. cbn. auto.
  - destruct (time.getnum value true) as [[d r]|] eqn:Hg; [|discriminate].
    intros [= <- _]. cbn. auto.
  - destruct (time.getnum value false) as [[h r]|] eqn:Hg; [|discriminate].
    destruct (Z.ltb_spec h 0); [discriminate|].
    destruct (Z.ltb_spec 12 h); [discriminate|].
    intros [= <- _]. cbn. repeat split; auto; lia.
  - destruct (time.getnum value true) as [[h r]|] eqn:Hg; [|discriminate].
    destruct (Z.ltb_spec h 0); [discriminate|].
    destruct (Z.ltb_spec 12 h); [discriminate|].
    intros [= <- _]. cbn. repeat split; auto; lia.
  - destruct (time.getnum value true) as [[m r]|] eqn:Hg; [|discriminate].
    destruct (Z.ltb_spec m 0); [discriminate|].
    destruct (Z.leb_spec 60 m); [discriminate|].
    intros [= <- _]. cbn. repeat split; auto; lia.
  - destruct value as [|c0 [|c1 rest]]; [discriminate | |].
    + destruct c0 as [[] [] [] [] [] [] [] []]; discriminate.
    + intros H.
      assert (Hcase : v' = time.setPM v \/ v' = time.setAM v).
      { destruct c0 as [[] [] [] [] [] [] [] []]; try discriminate H;
        destruct c1 as [[] [] [] [] [] [] [] []]; try discriminate H;
        injection H as <- _; auto. }
      destruct Hcase as [->| ->]; cbn; auto.
Qed.

Lemma finish_valid v t : inRange v -> time.finish v = inl t -> validTime t.
Proof.
  intros (Hy & Hm & Hh & Hmi). unfold time.finish, validTime.
  destruct (Z.ltb_spec (time.month v) 0) as [Hm0|Hm0];
  destruct (Z.ltb_spec (time.day v) 0) as [Hd0|Hd0];
  match goal with |- context [(?d <? 1) || (?x <? ?d)] =>
    destruct (Z.ltb_spec d 1); [discriminate|];
    destruct (Z.ltb_spec x d); [discriminate|] end;
  intros [= <-]; cbn [time.Year time.Month time.Day time.Hour time.Minute orb];
  (repeat split; try lia);
  destruct (time.pmSet v), (time.amSet v); cbn [andb];
  repeat match goal with |- context [if ?b then _ else _] => destruct b eqn:? end;
  lia.
Qed.

(** The loop of [parse] hands to [finish] variables that every element of
    the layout has kept in [P]. *)
Lemma parseLoop_keeps (P : time.fields -> Prop) (ok : time.std -> bool) :
  (forall st value v v' value', ok st = true -> P v ->
     time.parseStd st value v = (v', value', "", false) -> P v') ->
  forall fuel layout value v t,
    layoutOk ok fuel layout = true -> P v ->
    time.parseLoop fuel layout value v = inl t ->
    exists v', P v' /\ time.finish v' = inl t.
Proof.
  intros Hstep. induction fuel as [|fuel IH]; intros layout value v t Hok Hv;
    [discriminate|].
  rewrite parseLoop_S. cbn [layoutOk] in Hok.
  destruct (time.nextStdChunk layout) as [[prefix st] suffix].
  destruct (time.skip value prefix) as [value1|]; [|discriminate].
  assert (Hgo : forall st', st' = st -> st <> time.stdNone ->
    (let '(v', value2, rangeErrString, err) := time.parseStd st' value1 v in
     if negb (String.eqb rangeErrString "")
     then inr (time.newParseError (": " +:+ rangeErrString +:+ " out of range"))
     else if err then inr (time.newParseError "")
          else time.parseLoop fuel suffix value2 v') = inl t ->
    exists v', P v' /\ time.finish v' = inl t).
  { intros st' -> Hne.
    assert (Hok' : ok st = true /\ layoutOk ok fuel suffix = true)
      by (destruct st; try contradiction; apply andb_true_iff; exact Hok).
    destruct Hok' as [Hst Hsuffix].
    destruct (time.parseStd st value1 v) as [[[v1 value2] rs] err] eqn:Hp.
    destruct (String.eqb_spec rs "") as [->|Hrs]; [|discriminate]. cbn [negb].
    destruct err; [discriminate|].
    apply IH; [exact Hsuffix | exact (Hstep _ _ _ _ _ Hst Hv Hp)]. }
  destruct st; try (apply Hgo; [reflexivity | discriminate]).
  destruct value1; [|discriminate]. intros Hfin. exists v. auto.
Qed.

Lemma inRange_fields0 : inRange time.fields0.
Proof. unfold inRange, time.fields0; cbn. lia. Qed.

Lemma layoutOk_any fuel : forall layout, layoutOk (fun _ => true) fuel layout = true.
Proof.
  induction fuel as [|fuel IH]; intros layout; [reflexivity|].
  cbn [layoutOk]. destruct (time.nextStdChunk layout) as [[prefix st] suffix].
  destruct st; try reflexivity; cbn [andb]; apply IH.
Qed.

Lemma Parse_valid layout value t : time.Parse layout value = inl t -> validTime t.
Proof.
  unfold time.Parse. intros H.
  destruct (parseLoop_keeps inRange (fun _ => true)
              (fun st value v v' value' _ => parseStd_inRange st value v v' value')
              _ _ _ _ t (layoutOk_any _ layout) inRange_fields0 H)
    as (v' & Hv' & Hfin).
  exact (finish_valid v' t Hv' Hfin).
Qed.

(** X5: every time that Observed returns is a calendar time: a year of four
    digits, a month 1..12, a day of that month, an hour 0..23 and a minute
    0..59. *)
Theorem Observed_valid_time (r : ebird.Record) (t : time.Time) :
  ebird.Observed r = inl t -> validTime t.
Proof.
  unfold ebird.Observed.
  destruct (String.eqb _ _), (ebird.containsSlash _); apply Parse_valid.
Qed.

Lemma parseStd_noClock st value v v' value' :
  dateStd st = true -> noClock v ->
  time.parseStd st value v = (v', value', "", false) -> noClock v'.
Proof.
  intros Hst Hv. destruct st; try discriminate Hst; cbn [time.parseStd].
  - destruct value as [|c0 [|c1 [|c2 [|c3 rest]]]]; try discriminate.
    destruct (negb _); [discriminate|].
    destruct (time.atoi _); [|discriminate]. intros [= <- _]. exact Hv.
  - destruct (time.getnum value false) as [[m r]|]; [|discriminate].
    intros [= <- _]. exact Hv.
  - destruct (time.getnum value true) as [[m r]|]; [|discriminate].
    intros [= <- _]. exact Hv.
  - destruct (time.getnum value false) as [[m r]|]; [|discriminate].
    intros [= <- _]. exact Hv.
  - destruct (time.getnum value true) as [[m r]|]; [|discriminate].
    intros [= <- _]. exact Hv.
Qed.

Lemma finish_noClock v t : noClock v -> time.finish v = inl t ->
  time.Hour t = 0 /\ time.Minute t = 0.
Proof.
  intros (Hh & Hmi & Ham & Hpm). unfold time.finish. rewrite Hh, Hmi, Ham, Hpm.
  cbn [andb]. destruct (_ || _); [discriminate|]. intros [= <-]. auto.
Qed.

(** X6: without a time string, a time that Observed returns is midnight. *)
Theorem Observed_without_time_is_midnight (r : ebird.Record) (t : time.Time) :
  ebird.Time r = "" -> ebird.Observed r = inl t ->
  time.Hour t = 0 /\ time.Minute t = 0.
Proof.
  unfold ebird.Observed. intros ->. cbn [String.eqb].
  assert (H0 : noClock time.fields0) by (repeat split; reflexivity).
  destruct (ebird.containsSlash _); unfold time.Parse; intros H.
  - destruct (parseLoop_keeps noClock dateStd parseStd_noClock _ _ _ _ t
                (eq_refl : layoutOk dateStd (S (String.length "1/2/2006")) "1/2/2006" = true) H0 H)
      as (v' & Hv' & Hfin).
    exact (finish_noClock v' t Hv' Hfin).
  - destruct (parseLoop_keeps noClock dateStd parseStd_noClock _ _ _ _ t
                (eq_refl : layoutOk dateStd (S (String.length "2006-01-02")) "2006-01-02" = true) H0 H)
      as (v' & Hv' & Hfin).
    exact (finish_noClock v' t Hv' Hfin).
Qed.


(** The date part of a year-month-day layout, on a date so written. *)
Lemma parse_iso_date_prefix (L : string) (fuel : nat) (y m d : Z) (rest : string) :
  0 <= y <= 9999 -> 1 <= m <= 12 -> 0 <= d <= 99 ->
  time.parseLoop (S (S (S fuel))) ("2006-01-02" +:+ L) (isoDate y m d +:+ rest)
    time.fields0
  = time.parseLoop fuel L rest
      (time.setDay (time.setMonth (time.setYear time.fields0 y) m) d).
Proof.
  intros Hy Hm Hd. unfold isoDate. rewrite !append_assoc. push_append.
  chunk. rewrite skip_nil, parseStd_year by assumption. std_ok.
  chunk. rewrite skip_dash.
  rewrite (parseStd_month _ true m _ _ (getnum_pad2 m _ true ltac:(lia))) by assumption.
  std_ok.
  chunk. rewrite skip_dash.
  rewrite (parseStd_day _ true d _ _ (getnum_pad2 d _ true ltac:(lia))). std_ok.
  reflexivity.
Qed.

(** The date part of a month/day/year layout, on a date so written; what
    follows the year must not be a digit. *)
Lemma parse_slash_date_prefix (L : string) (fuel : nat) (y m d : Z) (rest : string) :
  0 <= y <= 9999 -> 1 <= m <= 12 -> 0 <= d <= 99 ->
  time.parseLoop (S (S (S fuel))) ("1/2/2006" +:+ L) (slashDate y m d +:+ rest)
    time.fields0
  = time.parseLoop fuel L rest
      (time.setYear (time.setDay (time.setMonth time.fields0 m) d) y).
Proof.
  intros Hy Hm Hd. unfold slashDate. rewrite !append_assoc. push_append.
  chunk. rewrite skip_nil.
  rewrite (parseStd_month _ false m _ _ (getnum_unpadded m _ _ ltac:(lia) isDigit_slash))
    by assumption.
  std_ok.
  chunk. rewrite skip_slash.
  rewrite (parseStd_day _ false d _ _ (getnum_unpadded d _ _ ltac:(lia) isDigit_slash)).
  std_ok.
  chunk. rewrite skip_slash, parseStd_year by assumption. std_ok.
  reflexivity.
Qed.

Lemma finish_day (y m d : Z) :
  1 <= m <= 12 -> 0 <= d ->
  time.finish (time.mkFields y m d 0 0 false false)
  = if (1 <=? d) && (d <=? time.daysIn m y) then inl (time.Date y m d 0 0)
    else inr (time.newParseError ": day out of range").
Proof.
  intros Hm Hd. unfold time.finish.
  cbn [time.year time.month time.day time.hour time.min time.amSet time.pmSet andb].
  destruct (Z.ltb_spec m 0); [lia|]. destruct (Z.ltb_spec d 0); [lia|].
  destruct (Z.ltb_spec d 1), (Z.leb_spec 1 d); try lia;
  destruct (Z.ltb_spec (time.daysIn m y) d), (Z.leb_spec d (time.daysIn m y));
  try lia; reflexivity.
Qed.

(** X7: without a time string, a date written year-month-day or
    month/day/year resolves to midnight of that day when the day exists in
    the month, and is a day-out-of-range error when it does not (day 0,
    February 30). Both ways of writing give the same result. *)
Theorem Observed_date_only (y m d : Z) :
  0 <= y <= 9999 -> 1 <= m <= 12 -> 0 <= d <= 99 ->
  let result :=
    if (1 <=? d) && (d <=? time.daysIn m y) then inl (time.Date y m d 0 0)
    else inr (time.newParseError ": day out of range") in
  ebird.Observed (dated (isoDate y m d) "") = result
  /\ ebird.Observed (dated (slashDate y m d) "") = result.
Proof.
  intros Hy Hm Hd result.
  unfold ebird.Observed, dated; cbn [ebird.Date ebird.Time String.eqb].
  rewrite containsSlash_isoDate, containsSlash_slashDate by lia.
  unfold time.Parse. split.
  - rewrite <- (append_nil_r (isoDate y m d)).
    change (time.parseLoop (S (String.length "2006-01-02")) "2006-01-02")
      with (time.parseLoop (S (S (S 8))) ("2006-01-02" +:+ "")).
    rewrite (parse_iso_date_prefix "" 8 y m d "") by assumption.
    rewrite parseLoop_S. cbn [time.nextStdChunk]. rewrite skip_nil.
    exact (finish_day y m d Hm (proj1 Hd)).
  - rewrite <- (append_nil_r (slashDate y m d)).
    change (time.parseLoop (S (String.length "1/2/2006")) "1/2/2006")
      with (time.parseLoop (S (S (S 6))) ("1/2/2006" +:+ "")).
    rewrite (parse_slash_date_prefix "" 6 y m d "") by assumption.
    rewrite parseLoop_S. cbn [time.nextStdChunk]. rewrite skip_nil.
    exact (finish_day y m d Hm (proj1 Hd)).
Qed.


Lemma containsSlash_app (a b : string) :
  ebird.containsSlash (a +:+ b) = ebird.containsSlash a || ebird.containsSlash b.
Proof.
  induction a as [|c a IH]; [reflexivity|].
  rewrite append_cons. cbn [ebird.containsSlash]. rewrite IH, orb_assoc. reflexivity.
Qed.

(** A value that does not start with a digit has no year and no month. *)
Lemma parseStd_no_leading_digit (st : time.std) (value : string) (v : time.fields) :
  st = time.stdLongYear \/ st = time.stdNumMonth ->
  (forall c s, value = String c s -> time.isDigit c = false) ->
  exists v' value', time.parseStd st value v = (v', value', "", true).
Proof.
  intros Hst Hc. destruct value as [|c0 s0].
  - destruct Hst as [-> | ->]; cbn; eauto.
  - pose proof (Hc c0 s0 eq_refl) as H0.
    destruct Hst as [-> | ->]; cbn [time.parseStd time.getnum]; rewrite H0.
    + destruct s0 as [|c1 [|c2 [|c3 s3]]]; cbn [negb]; eauto.
    + eauto.
Qed.

(** X8: a date that is empty or does not start with a digit is a parse
    error, whatever the time string. *)
Theorem Observed_needs_leading_digit (r : ebird.Record) :
  (forall c s, ebird.Date r = String c s -> time.isDigit c = false) ->
  ebird.Observed r = inr (time.newParseError "").
Proof.
  intros Hc. unfold ebird.Observed.
  assert (Hv : forall c s, ebird.Date r +:+ " " +:+ ebird.Time r = String c s ->
                           time.isDigit c = false).
  { destruct (ebird.Date r) as [|c0 s0].
    - intros c s [= <- _]. reflexivity.
    - intros c s [= <- _]. apply (Hc c0 s0 eq_refl). }
  assert (Hrun : forall fuel layout st suffix value,
    time.nextStdChunk layout = ("", st, suffix) ->
    st = time.stdLongYear \/ st = time.stdNumMonth ->
    (forall c s, value = String c s -> time.isDigit c = false) ->
    time.parseLoop (S fuel) layout value time.fields0 = inr (time.newParseError "")).
  { intros fuel layout st suffix value Hchunk Hst Hvalue.
    rewrite parseLoop_S, Hchunk, skip_nil.
    destruct (parseStd_no_leading_digit st value time.fields0 Hst Hvalue)
      as (v' & value' & Hp).
    rewrite Hp. destruct Hst as [-> | ->]; reflexivity. }
  unfold time.Parse.
  destruct (String.eqb _ _), (ebird.containsSlash _);
    eapply Hrun; try reflexivity; auto.
Qed.


(** X10: a year-month-day date needs its month zero-padded (2024-5-01 is a
    parse error), while a month/day/year date may have month and day
    zero-padded (05/01/2024 resolves). *)
Theorem Observed_date_zero_padding (y m d : Z) :
  0 <= y <= 9999 -> 1 <= m <= 12 -> 1 <= d <= time.daysIn m y ->
  (m < 10 ->
   ebird.Observed (dated (pad4 y +:+ "-" +:+ unpadded m +:+ "-" +:+ pad2 d) "")
   = inr (time.newParseError ""))
  /\ ebird.Observed (dated (pad2 m +:+ "/" +:+ pad2 d +:+ "/" +:+ pad4 y) "")
     = inl (time.Date y m d 0 0).
Proof.
  intros Hy Hm Hd. pose proof (daysIn_le_31 m y) as Hd'.
  unfold ebird.Observed, dated; cbn [ebird.Date ebird.Time String.eqb].
  split.
  - intros Hlt.
    assert (Hs : ebird.containsSlash
                   (pad4 y +:+ "-" +:+ unpadded m +:+ "-" +:+ pad2 d) = false).
    { rewrite unpadded_lt10 by lia.
      pose proof (containsSlash_isoDate y 0 d ltac:(lia) ltac:(lia) ltac:(lia)) as H.
      unfold isoDate in H. rewrite !containsSlash_app in *.
      apply orb_false_iff in H as [H1 H]. apply orb_false_iff in H as [_ H].
      apply orb_false_iff in H as [_ H]. rewrite H1.
      rewrite (containsSlash_digit m "") by lia. exact H. }
    rewrite Hs. unfold time.Parse. push_append. cbn [String.length].
    chunk. rewrite skip_nil, parseStd_year by assumption. std_ok.
    chunk. rewrite skip_dash.
    change time.stdZeroMonth with (if true then time.stdZeroMonth else time.stdNumMonth).
    cbn [time.parseStd].
    rewrite (getnum_fixed_one m "-" _ ltac:(lia) isDigit_dash). reflexivity.
  - rewrite containsSlash_pad2 by lia. cbn [String.append ebird.containsSlash Ascii.eqb Bool.eqb andb orb].
    unfold time.Parse. push_append. cbn [String.length].
    chunk. rewrite skip_nil.
    rewrite (parseStd_month _ false m _ _ (getnum_pad2 m _ false ltac:(lia))) by assumption.
    std_ok.
    chunk. rewrite skip_slash.
    rewrite (parseStd_day _ false d _ _ (getnum_pad2 d _ false ltac:(lia))). std_ok.
    chunk. rewrite skip_slash.
    rewrite <- (append_nil_r (pad4 y)), parseStd_year by assumption. std_ok.
    chunk. rewrite skip_nil.
    change (time.setYear _ y) with (time.mkFields y m d 0 0 false false).
    rewrite finish_day by lia.
    destruct (Z.leb_spec 1 d); [|lia]. destruct (Z.leb_spec d (time.daysIn m y)); [|lia].
    reflexivity.
Qed.


Lemma parseStd_hour_high value fixed h rest v :
  time.getnum value fixed = Some (h, rest) -> 12 < h ->
  time.parseStd (if fixed then time.stdZeroHour12 else time.stdHour12) value v
  = (time.setHour v h, rest, "hour", false).
Proof.
  intros Hg Hh. destruct fixed; cbn [time.parseStd]; rewrite Hg;
    destruct (Z.ltb_spec h 0); try lia; destruct (Z.ltb_spec 12 h); try lia;
    reflexivity.
Qed.

Lemma parseStd_minute_high value mi rest v :
  time.getnum value true = Some (mi, rest) -> 60 <= mi ->
  time.parseStd time.stdZeroMinute value v = (time.setMin v mi, rest, "minute", false).
Proof.
  intros Hg Hm. cbn [time.parseStd]. rewrite Hg.
  destruct (Z.ltb_spec mi 0); try lia; destruct (Z.leb_spec 60 mi); try lia;
  reflexivity.
Qed.

(** The clock part of the two layouts with a time, on an hour or a minute
    that no clock shows. *)
Lemma parse_clock_out_of_range (fixed padded : bool) (fuel : nat) (h mi : Z)
    (pm : bool) (v : time.fields) :
  (fixed = true -> padded = true) -> 0 <= h <= 99 -> 0 <= mi <= 99 ->
  12 < h \/ 60 <= mi ->
  time.parseLoop (S (S fuel)) (if fixed then " 03:04 PM" else " 3:04 PM")
    (" " +:+ clock12 padded h mi pm) v
  = inr (time.newParseError
           (if 12 <? h then ": hour out of range" else ": minute out of range")).
Proof.
  intros Hpad Hh Hmi Hbad. unfold clock12. rewrite ?append_assoc. push_append.
  assert (Hnum : time.getnum
            (time.cutspace ((if padded then pad2 h else unpadded h)
                            +:+ String ":" (pad2 mi +:+ String " " (if pm then "PM" else "AM"))))
            fixed
          = Some (h, String ":" (pad2 mi +:+ String " " (if pm then "PM" else "AM")))).
  { destruct padded.
    - rewrite cutspace_pad2 by lia. apply getnum_pad2. lia.
    - destruct fixed; [discriminate (Hpad eq_refl)|].
      rewrite cutspace_unpadded by lia. apply getnum_unpadded; [lia | reflexivity]. }
  rewrite parseLoop_S.
  assert (Hchunk : time.nextStdChunk (if fixed then " 03:04 PM" else " 3:04 PM")
                   = (" ", if fixed then time.stdZeroHour12 else time.stdHour12, ":04 PM"))
    by (destruct fixed; reflexivity).
  rewrite Hchunk, skip_space.
  destruct (Z.ltb_spec 12 h) as [Hhigh|Hlow].
  - rewrite (parseStd_hour_high _ fixed h _ v Hnum Hhigh).
    destruct fixed; reflexivity.
  - rewrite (parseStd_hour _ fixed h _ v Hnum ltac:(lia)).
    assert (Hst : (if fixed then time.stdZeroHour12 else time.stdHour12) <> time.stdNone)
      by (destruct fixed; discriminate).
    destruct (if fixed then time.stdZeroHour12 else time.stdHour12) eqn:Hstd;
      try contradiction; std_ok;
      (chunk; rewrite skip_colon;
       rewrite (parseStd_minute_high _ mi _ _ (getnum_pad2 mi _ true ltac:(lia)))
         by lia;
       reflexivity).
Qed.

(** X11: with a valid date, an hour above 12 is an hour-out-of-range error
    and, with an hour up to 12, a minute above 59 is a minute-out-of-range
    error, for both ways of writing the date. *)
Theorem Observed_clock_out_of_range (y m d h mi : Z) (pm padded : bool) :
  0 <= y <= 9999 -> 1 <= m <= 12 -> 0 <= d <= 99 ->
  0 <= h <= 99 -> 0 <= mi <= 99 -> 12 < h \/ 60 <= mi ->
  let failure :=
    inr (time.newParseError
           (if 12 <? h then ": hour out of range" else ": minute out of range")) in
  ebird.Observed (dated (isoDate y m d) (clock12 true h mi pm)) = failure
  /\ ebird.Observed (dated (slashDate y m d) (clock12 padded h mi pm)) = failure.
Proof.
  intros Hy Hm Hd Hh Hmi Hbad failure.
  unfold ebird.Observed, dated; cbn [ebird.Date ebird.Time].
  rewrite !clock12_nonempty, containsSlash_isoDate, containsSlash_slashDate by lia.
  unfold time.Parse. split.
  - change (time.parseLoop (S (String.length "2006-01-02 03:04 PM")) "2006-01-02 03:04 PM")
      with (time.parseLoop (S (S (S 17))) ("2006-01-02" +:+ " 03:04 PM")).
    rewrite parse_iso_date_prefix by assumption.
    apply (parse_clock_out_of_range true true 15); auto.
  - change (time.parseLoop (S (String.length "1/2/2006 3:04 PM")) "1/2/2006 3:04 PM")
      with (time.parseLoop (S (S (S 14))) ("1/2/2006" +:+ " 3:04 PM")).
    rewrite parse_slash_date_prefix by assumption.
    apply (parse_clock_out_of_range false padded 12); auto. discriminate.
Qed.

End MoreTimestamps.

(** X5 at 07:00 AM of May 1 2024. *)
Lemma Observed_valid_time_witness : text.validTime (time.Date 2024 5 1 7 0).
Proof.
  exact (Observed_valid_time (text.dated "2024-05-01" "07:00 AM") (time.Date 2024 5 1 7 0)
           eq_refl).
Defined.

(** X6 at 5/1/2024. *)
Lemma Observed_without_time_is_midnight_witness :
  time.Hour (time.Date 2024 5 1 0 0) = 0%Z /\ time.Minute (time.Date 2024 5 1 0 0) = 0%Z.
Proof.
  exact (Observed_without_time_is_midnight (text.dated "5/1/2024" "")
           (time.Date 2024 5 1 0 0) eq_refl eq_refl).
Defined.

(** X7 at February 29 and February 30 of 2024. *)
Lemma Observed_date_only_witness :
  (ebird.Observed (text.dated "2024-02-29" "") = inl (time.Date 2024 2 29 0 0)
   /\ ebird.Observed (text.dated "2/29/2024" "") = inl (time.Date 2024 2 29 0 0))
  /\ (ebird.Observed (text.dated "2024-02-30" "")
        = inr (time.newParseError ": day out of range")
      /\ ebird.Observed (text.dated "2/30/2024" "")
           = inr (time.newParseError ": day out of range")).
Proof.
  split.
  - exact (Observed_date_only 2024 2 29 ltac:(lia) ltac:(lia) ltac:(lia)).
  - exact (Observed_date_only 2024 2 30 ltac:(lia) ltac:(lia) ltac:(lia)).
Defined.

(** X8 at the date not-a-date. *)
Lemma Observed_needs_leading_digit_witness :
  ebird.Observed (text.dated "not-a-date" "07:00 AM") = inr (time.newParseError "").
Proof.
  apply Observed_needs_leading_digit. intros c s [= <- _]. reflexivity.
Defined.


(** X10 at May 1 2024. *)
Lemma Observed_date_zero_padding_witness :
  ebird.Observed (text.dated "2024-5-01" "") = inr (time.newParseError "")
  /\ ebird.Observed (text.dated "05/01/2024" "") = inl (time.Date 2024 5 1 0 0).
Proof.
  assert (Hd : (1 <= 1 <= time.daysIn 5 2024)%Z) by (vm_compute; split; discriminate).
  destruct (Observed_date_zero_padding 2024 5 1 ltac:(lia) ltac:(lia) Hd) as [H1 H2].
  split; [exact (H1 ltac:(lia)) | exact H2].
Defined.

(** X11 at the times 13:00 PM and 07:60 AM. *)
Lemma Observed_clock_out_of_range_witness :
  ebird.Observed (text.dated "2024-05-01" "13:00 PM")
    = inr (time.newParseError ": hour out of range")
  /\ ebird.Observed (text.dated "5/1/2024" "7:60 AM")
       = inr (time.newParseError ": minute out of range").
Proof.
  split.
  - destruct (Observed_clock_out_of_range 2024 5 1 13 0 true true
                ltac:(lia) ltac:(lia) ltac:(lia) ltac:(lia) ltac:(lia) ltac:(lia))
      as [H _].
    exact H.
  - destruct (Observed_clock_out_of_range 2024 5 1 7 60 false false
                ltac:(lia) ltac:(lia) ltac:(lia) ltac:(lia) ltac:(lia) ltac:(lia))
      as [_ H].
    exact H.
Defined.

(** ** URLs and identities *)

(** X12: two Records have the same URL iff they have the same submission
    identifier. *)
Theorem URL_identifies_checklist (r1 r2 : ebird.Record) :
  ebird.URL r1 = ebird.URL r2 <-> ebird.SubmissionID r1 = ebird.SubmissionID r2.
Proof.
  unfold ebird.URL. split.
  - apply append_inj_l.
  - intros ->. reflexivity.
Qed.

Lemma append_split_at (c : ascii) (a b x y : string) :
  text.occurs c a = false -> text.occurs c b = false ->
  a +:+ String c x = b +:+ String c y -> a = b /\ x = y.
Proof.
  revert b. induction a as [|ca a IH]; intros [|cb b]; cbn [text.occurs];
    rewrite ?append_cons, ?append_nil.
  - intros _ _ [= ->]. auto.
  - intros _ Hb [= <- _]. rewrite Ascii.eqb_refl in Hb. discriminate Hb.
  - intros Ha _ [= -> _]. rewrite Ascii.eqb_refl in Ha. discriminate Ha.
  - intros Ha Hb [= -> H]. apply orb_false_iff in Ha as [_ Ha].
    apply orb_false_iff in Hb as [_ Hb].
    destruct (IH b Ha Hb H) as [-> ->]. auto.
Qed.

Lemma length_append (a b : string) :
  String.length (a +:+ b) = (String.length a + String.length b)%nat.
Proof.
  induction a as [|c a IH]; [reflexivity|].
  rewrite append_cons. cbn [String.length]. rewrite IH. reflexivity.
Qed.

Lemma append_inj_r (a b s : string) : a +:+ s = b +:+ s -> a = b.
Proof.
  intros H.
  assert (Hlen : String.length a = String.length b).
  { apply (f_equal String.length) in H. rewrite !length_append in H. lia. }
  revert b H Hlen. induction a as [|ca a IH]; intros [|cb b] H Hlen;
    try discriminate Hlen; [reflexivity|].
  rewrite !append_cons in H. injection H as -> H. f_equal. apply IH; [exact H|].
  cbn in Hlen. lia.
Qed.

(** X13: the String form tells observations apart: two ObservationIDs whose
    submission identifiers hold no opening bracket and whose String forms
    are equal are equal. *)
Theorem ObservationID_String_injective (o1 o2 : ebird.ObservationID) :
  text.occurs "[" (ebird.oSubmissionID o1) = false ->
  text.occurs "[" (ebird.oSubmissionID o2) = false ->
  ebird.ObservationID_String o1 = ebird.ObservationID_String o2 -> o1 = o2.
Proof.
  destruct o1 as [s1 n1], o2 as [s2 n2]. unfold ebird.ObservationID_String.
  cbn [ebird.oSubmissionID ebird.oScientificName]. intros H1 H2 H.
  rewrite !append_cons, !append_nil in H.
  destruct (append_split_at _ _ _ _ _ H1 H2 H) as [-> Hn].
  apply append_inj_r in Hn. subst. reflexivity.
Qed.

Section AssetResults.
Variable http_Get : string -> ebird.Response + string.
Variable os_CreateTemp : string + string.
Variable io_Copy : string -> option string.
Variable tmpFile_Seek : option string.
Variable tmpFile_Read : string -> string + string.
Variable DetectContentType : string -> string.
Variable ExtensionsByType : string -> list string + string.
Variable os_Rename : string -> string -> option string.

Local Abbreviation download :=
  (ebird.DownloadMLAsset http_Get os_CreateTemp io_Copy tmpFile_Seek tmpFile_Read
    DetectContentType ExtensionsByType os_Rename).
Local Abbreviation store :=
  (ebird.store os_CreateTemp io_Copy tmpFile_Seek tmpFile_Read
    DetectContentType ExtensionsByType os_Rename).

(** X14: when the photo request is answered with 404 and the sound request
    with 200, and the temporary file can be created, written and renamed,
    the result is the file name with .mp3 appended and the photo flag
    false, after the two requests; seeking, reading and content-type
    detection play no part. *)
Theorem DownloadMLAsset_sound (mlAssetID tmpName : string) (photo sound : ebird.Response) :
  http_Get (ebird.photoURL mlAssetID) = inl photo ->
  ebird.StatusCode photo = 404%Z ->
  http_Get (ebird.soundURL mlAssetID) = inl sound ->
  ebird.StatusCode sound = 200%Z ->
  os_CreateTemp = inl tmpName ->
  io_Copy (ebird.Body sound) = None ->
  os_Rename tmpName (tmpName +:+ ".mp3") = None ->
  download mlAssetID
  = ((tmpName +:+ ".mp3", false, None),
     [ebird.photoURL mlAssetID; ebird.soundURL mlAssetID]).
Proof.
  intros Hp Hp404 Hs Hs200 Htmp Hcopy Hren.
  unfold ebird.DownloadMLAsset, ebird.store, ebird.StatusOK, ebird.StatusNotFound.
  rewrite Hp, Hp404. cbn [Z.eqb Pos.eqb]. rewrite Hs, Hs200. cbn [Z.eqb Pos.eqb negb].
  rewrite Htmp, Hcopy, Hren. reflexivity.
Qed.

(** X15: when the photo request is answered with 200 and every file step
    succeeds, the result is the temporary name with the first extension of
    the detected content type appended and the photo flag true, after the
    one request. *)
Theorem DownloadMLAsset_photo (mlAssetID tmpName buf ext : string) (exts : list string)
    (photo : ebird.Response) :
  http_Get (ebird.photoURL mlAssetID) = inl photo ->
  ebird.StatusCode photo = 200%Z ->
  os_CreateTemp = inl tmpName ->
  io_Copy (ebird.Body photo) = None ->
  tmpFile_Seek = None ->
  tmpFile_Read (ebird.Body photo) = inl buf ->
  ExtensionsByType (DetectContentType buf) = inl (ext :: exts) ->
  os_Rename tmpName (tmpName +:+ ext) = None ->
  download mlAssetID = ((tmpName +:+ ext, true, None), [ebird.photoURL mlAssetID]).
Proof.
  intros Hp Hp200 Htmp Hcopy Hseek Hread Hext Hren.
  unfold ebird.DownloadMLAsset, ebird.store, ebird.StatusOK, ebird.StatusNotFound.
  rewrite Hp, Hp200. cbn [Z.eqb Pos.eqb negb].
  rewrite Htmp, Hcopy, Hseek, Hread, Hext, Hren. reflexivity.
Qed.

(** X16: a photo whose detected content type has no extension (an empty
    list, or an error of the lookup) is an error that names the content
    type; no file name is returned. *)
Theorem DownloadMLAsset_unknown_content_type (mlAssetID tmpName buf : string)
    (photo : ebird.Response) (unknown : option string) :
  http_Get (ebird.photoURL mlAssetID) = inl photo ->
  ebird.StatusCode photo = 200%Z ->
  os_CreateTemp = inl tmpName ->
  io_Copy (ebird.Body photo) = None ->
  tmpFile_Seek = None ->
  tmpFile_Read (ebird.Body photo) = inl buf ->
  ExtensionsByType (DetectContentType buf)
    = match unknown with Some err => inr err | None => inl [] end ->
  download mlAssetID
  = (("", true,
      Some (("DownloadMLAsset(" +:+ mlAssetID +:+ "): ")
            +:+ "failed to find file extension for mime type "
            +:+ DetectContentType buf +:+ ": " +:+ ebird.verbW unknown)),
     [ebird.photoURL mlAssetID]).
Proof.
  intros Hp Hp200 Htmp Hcopy Hseek Hread Hext.
  unfold ebird.DownloadMLAsset, ebird.store, ebird.StatusOK, ebird.StatusNotFound.
  rewrite Hp, Hp200. cbn [Z.eqb Pos.eqb negb].
  rewrite Htmp, Hcopy, Hseek, Hread, Hext. destruct unknown; reflexivity.
Qed.

(** X17: when the photo request is answered with 404 and the sound request
    fails, by a status other than 200 or in transport, the error names the
    sound URL with that status or failure, and the photo flag is false. *)
Theorem DownloadMLAsset_both_probes_fail (mlAssetID : string) (photo : ebird.Response) :
  http_Get (ebird.photoURL mlAssetID) = inl photo ->
  ebird.StatusCode photo = 404%Z ->
  match http_Get (ebird.soundURL mlAssetID) with
  | inl sound =>
      ebird.StatusCode sound <> 200%Z ->
      download mlAssetID
      = (("", false,
          Some (("DownloadMLAsset(" +:+ mlAssetID +:+ "): ")
                +:+ ebird.soundURL mlAssetID +:+ ": " +:+ ebird.Status sound)),
         [ebird.photoURL mlAssetID; ebird.soundURL mlAssetID])
  | inr err =>
      download mlAssetID
      = (("", false,
          Some (("DownloadMLAsset(" +:+ mlAssetID +:+ "): ")
                +:+ ebird.soundURL mlAssetID +:+ ": " +:+ err)),
         [ebird.photoURL mlAssetID; ebird.soundURL mlAssetID])
  end.
Proof.
  intros Hp Hp404.
  unfold ebird.DownloadMLAsset, ebird.StatusOK, ebird.StatusNotFound.
  rewrite Hp, Hp404. cbn [Z.eqb Pos.eqb].
  destruct (http_Get (ebird.soundURL mlAssetID)) as [sound|err]; [|reflexivity].
  intros Hs. destruct (Z.eqb_spec (ebird.StatusCode sound) 200); [contradiction|].
  reflexivity.
Qed.

Lemma store_result (mlAssetID : string) (isPhoto : bool) (resp : ebird.Response) :
  match store mlAssetID isPhoto resp with
  | (path, flag, Some _) => path = "" /\ flag = isPhoto
  | (path, flag, None) =>
      flag = isPhoto
      /\ exists tmpName ext,
           os_CreateTemp = inl tmpName /\ path = tmpName +:+ ext
           /\ os_Rename tmpName path = None
           /\ (isPhoto = false -> ext = ".mp3")
  end.
Proof.
  unfold ebird.store.
  destruct os_CreateTemp as [tmpName|err]; [|auto].
  destruct (io_Copy _); [auto|].
  destruct isPhoto.
  - destruct tmpFile_Seek; [auto|].
    destruct (tmpFile_Read _) as [buf|err]; [|auto].
    destruct (ExtensionsByType _) as [[|ext exts]|err]; [auto| |auto].
    destruct (os_Rename _ _) eqn:Hren; [auto|].
    split; [reflexivity|]. exists tmpName, ext. repeat split; auto. discriminate.
  - destruct (os_Rename _ _) eqn:Hren; [auto|].
    split; [reflexivity|]. exists tmpName, ".mp3". repeat split; auto.
Qed.

(** X18: a call that ends in an error returns the empty file name; a call
    that succeeds returns the name of the temporary file with an extension
    appended, to which the file was renamed, and the extension is .mp3
    when the photo flag is false. *)
Theorem DownloadMLAsset_result (mlAssetID : string) :
  match (ebird.DownloadMLAsset http_Get os_CreateTemp io_Copy tmpFile_Seek
           tmpFile_Read DetectContentType ExtensionsByType os_Rename mlAssetID).1 with
  | (path, _, Some _) => path = ""
  | (path, isPhoto, None) =>
      exists tmpName ext,
        os_CreateTemp = inl tmpName /\ path = tmpName +:+ ext
        /\ os_Rename tmpName path = None
        /\ (isPhoto = false -> ext = ".mp3")
  end.
Proof.
  unfold ebird.DownloadMLAsset.
  destruct (http_Get (ebird.photoURL mlAssetID)) as [photo|err]; [|reflexivity].
  destruct (Z.eqb (ebird.StatusCode photo) ebird.StatusNotFound).
  - destruct (http_Get (ebird.soundURL mlAssetID)) as [sound|err]; [|reflexivity].
    destruct (negb _); [reflexivity|]. cbn [fst].
    pose proof (store_result mlAssetID
                  (Z.eqb (ebird.StatusCode photo) ebird.StatusOK) sound) as H.
    destruct (store _ _ _) as [[path flag] [e|]]; [tauto|].
    destruct H as [-> H]. exact H.
  - destruct (negb _); [reflexivity|]. cbn [fst].
    pose proof (store_result mlAssetID
                  (Z.eqb (ebird.StatusCode photo) ebird.StatusOK) photo) as H.
    destruct (store _ _ _) as [[path flag] [e|]]; [tauto|].
    destruct H as [-> H]. exact H.
Qed.

(** X19: the photo flag is true iff the photo request was answered with
    200, whether or not the call then succeeds; and the requests are the
    photo URL, alone or followed by the sound URL. *)
Theorem DownloadMLAsset_flag_and_requests (mlAssetID : string) :
  ((download mlAssetID).1.1.2 = true <->
     exists photo, http_Get (ebird.photoURL mlAssetID) = inl photo
                   /\ ebird.StatusCode photo = 200%Z)
  /\ ((download mlAssetID).2 = [ebird.photoURL mlAssetID]
      \/ (download mlAssetID).2 = [ebird.photoURL mlAssetID; ebird.soundURL mlAssetID]).
Proof.
  unfold ebird.DownloadMLAsset, ebird.StatusOK, ebird.StatusNotFound.
  destruct (http_Get (ebird.photoURL mlAssetID)) as [photo|err].
  - assert (Hflag : forall b : bool,
              b = Z.eqb (ebird.StatusCode photo) 200 ->
              (b = true <->
               exists photo', (inl photo : ebird.Response + string) = inl photo'
                              /\ ebird.StatusCode photo' = 200%Z)).
    { intros b ->. rewrite Z.eqb_eq. split.
      - intros H. exists photo. auto.
      - intros (photo' & [= <-] & H). exact H. }
    destruct (Z.eqb (ebird.StatusCode photo) 404).
    + destruct (http_Get (ebird.soundURL mlAssetID)) as [sound|err].
      * destruct (negb _); (split; [|auto]); apply Hflag; [reflexivity|].
        pose proof (store_result mlAssetID (Z.eqb (ebird.StatusCode photo) 200) sound) as H.
        destruct (store _ _ _) as [[path flag] [e|]]; cbn; tauto.
      * split; [|auto]. apply Hflag. reflexivity.
    + destruct (negb _); (split; [|auto]); apply Hflag; [reflexivity|].
      pose proof (store_result mlAssetID (Z.eqb (ebird.StatusCode photo) 200) photo) as H.
      destruct (store _ _ _) as [[path flag] [e|]]; cbn; tauto.
  - cbn [fst snd]. split; [|auto]. split; [discriminate|].
    intros (photo & H & _). discriminate H.
Qed.

End AssetResults.

(** X13 at an observation of checklist S1. *)
Lemma ObservationID_String_injective_witness :
  ebird.mkObservationID "S1" "Anas platyrhynchos"
  = ebird.mkObservationID "S1" "Anas platyrhynchos".
Proof.
  exact (ObservationID_String_injective
           (ebird.mkObservationID "S1" "Anas platyrhynchos")
           (ebird.mkObservationID "S1" "Anas platyrhynchos") eq_refl eq_refl eq_refl).
Defined.

(** X14 on the asset 123 as a sound, with a file that cannot be read back. *)
Lemma DownloadMLAsset_sound_witness :
  ebird.DownloadMLAsset (sample.assetServer 404 "404 Not Found") (inl "/tmp/birdsync1")
    (fun _ => None) (Some "seek failed") (fun _ => inr "read failed")
    (fun _ => "text/plain") (fun _ => inl []) (fun _ _ => None) "123"
  = (("/tmp/birdsync1.mp3", false, None), [ebird.photoURL "123"; ebird.soundURL "123"]).
Proof.
  exact (DownloadMLAsset_sound (sample.assetServer 404 "404 Not Found")
           (inl "/tmp/birdsync1") (fun _ => None) (Some "seek failed")
           (fun _ => inr "read failed") (fun _ => "text/plain") (fun _ => inl [])
           (fun _ _ => None) "123" "/tmp/birdsync1"
           (ebird.mkResponse 404 "404 Not Found" "photo bytes")
           (ebird.mkResponse 200 "200 OK" "sound bytes")
           eq_refl eq_refl eq_refl eq_refl eq_refl eq_refl eq_refl).
Defined.

(** X15 on the asset 123 as a JPEG photo. *)
Lemma DownloadMLAsset_photo_witness :
  ebird.DownloadMLAsset (sample.assetServer 200 "200 OK") (inl "/tmp/birdsync1")
    (fun _ => None) None (fun body => inl body) (fun _ => "image/jpeg")
    (fun _ => inl [".jpe"; ".jpeg"; ".jpg"]) (fun _ _ => None) "123"
  = (("/tmp/birdsync1.jpe", true, None), [ebird.photoURL "123"]).
Proof.
  exact (DownloadMLAsset_photo (sample.assetServer 200 "200 OK")
           (inl "/tmp/birdsync1") (fun _ => None) None (fun body => inl body)
           (fun _ => "image/jpeg") (fun _ => inl [".jpe"; ".jpeg"; ".jpg"])
           (fun _ _ => None) "123" "/tmp/birdsync1" "photo bytes" ".jpe"
           [".jpeg"; ".jpg"] (ebird.mkResponse 200 "200 OK" "photo bytes")
           eq_refl eq_refl eq_refl eq_refl eq_refl eq_refl eq_refl eq_refl).
Defined.

(** X16 on the asset 123 with bytes of no known type. *)
Lemma DownloadMLAsset_unknown_content_type_witness :
  ebird.DownloadMLAsset (sample.assetServer 200 "200 OK") (inl "/tmp/birdsync1")
    (fun _ => None) None (fun body => inl body) (fun _ => "application/x-unknown")
    (fun _ => inl []) (fun _ _ => None) "123"
  = (("", true,
      Some (("DownloadMLAsset(" +:+ "123" +:+ "): ")
            +:+ "failed to find file extension for mime type "
            +:+ "application/x-unknown" +:+ ": " +:+ "%!w(<nil>)")),
     [ebird.photoURL "123"]).
Proof.
  exact (DownloadMLAsset_unknown_content_type (sample.assetServer 200 "200 OK")
           (inl "/tmp/birdsync1") (fun _ => None) None (fun body => inl body)
           (fun _ => "application/x-unknown") (fun _ => inl []) (fun _ _ => None)
           "123" "/tmp/birdsync1" "photo bytes"
           (ebird.mkResponse 200 "200 OK" "photo bytes") None
           eq_refl eq_refl eq_refl eq_refl eq_refl eq_refl eq_refl).
Defined.

(** X17 on an asset that neither endpoint has. *)
Lemma DownloadMLAsset_both_probes_fail_witness :
  ebird.DownloadMLAsset sample.missingAsset (inl "/tmp/birdsync1")
    (fun _ => None) None (fun body => inl body) (fun _ => "image/jpeg")
    (fun _ => inl [".jpg"]) (fun _ _ => None) "404404"
  = (("", false,
      Some (("DownloadMLAsset(" +:+ "404404" +:+ "): ")
            +:+ ebird.soundURL "404404" +:+ ": " +:+ "404 Not Found")),
     [ebird.photoURL "404404"; ebird.soundURL "404404"]).
Proof.
  apply (DownloadMLAsset_both_probes_fail sample.missingAsset (inl "/tmp/birdsync1")
           (fun _ => None) None (fun body => inl body) (fun _ => "image/jpeg")
           (fun _ => inl [".jpg"]) (fun _ _ => None) "404404"
           (ebird.mkResponse 404 "404 Not Found" "") eq_refl eq_refl).
  discriminate.
Defined.

(** ** More on DownloadObservations *)

Section PaginationRuns.
Local Open Scope Z_scope.
Local Open Scope list_scope.

Variable Result : Type.
Variable exchange : inat.Request -> inat.Observations Result + string.
Variable inatUserID : string.
Variable d1str d2str : option string.
Variable fieldNames : list string.

Local Abbreviation request := (inat.request inatUserID d1str d2str fieldNames).
Local Abbreviation body := (inat.body Result exchange inatUserID d1str d2str fieldNames).
Local Abbreviation loop := (inat.loop Result exchange inatUserID d1str d2str fieldNames).
Local Abbreviation start := (inat.start Result).
Local Abbreviation reaches := (inat.reaches Result exchange inatUserID d1str d2str fieldNames).
Local Abbreviation DownloadObservations :=
  (inat.DownloadObservations Result exchange inatUserID d1str d2str fieldNames).
Local Abbreviation counted :=
  (inat.counted Result exchange inatUserID d1str d2str fieldNames).
Local Abbreviation progress :=
  (inat.progress Result exchange inatUserID d1str d2str fieldNames).
Local Abbreviation curPage := (inat.curPage Result).
Local Abbreviation results := (inat.results Result).
Local Abbreviation totalResults := (inat.totalResults Result).
Local Abbreviation sent := (inat.sent Result).
Local Abbreviation captured := (inat.captured Result).

(** Where the loop ends: at a page it got to, by a break or by an exit. *)
Lemma loop_ends (fuel : nat) : forall s out tr,
  reaches s -> loop fuel s = Some (out, tr) ->
  exists s',
    reaches s' /\ (curPage s' < curPage s + fuel)%nat
    /\ ((exists rs, body s' = inat.Break _ rs tr /\ out = inat.Return rs)
        \/ (exists err, body s' = inat.Exit _ err tr /\ out = inat.Fatal err)).
Proof.
  induction fuel as [|fuel IH]; intros s out tr Hs H; [discriminate H|].
  rewrite loop_S in H. destruct (body s) as [s1|rs1 tr1|err tr1] eqn:Hb.
  - destruct (IH s1 out tr) as (s' & Hs' & Hlt & Hend);
      [econstructor; eassumption | exact H |].
    exists s'. split; [exact Hs'|]. split; [|exact Hend].
    apply body_Continue in Hb as (obs & _ & _ & _ & ->). cbn [inat.curPage] in Hlt. lia.
  - injection H as <- <-. exists s. split; [exact Hs|]. split; [lia|]. left. eauto.
  - injection H as <- <-. exists s. split; [exact Hs|]. split; [lia|]. right. eauto.
Qed.

Lemma body_sent s : forall tr,
  (forall rs, body s = inat.Break _ rs tr -> tr = sent s ++ [request (curPage s)])
  /\ (forall err, body s = inat.Exit _ err tr -> tr = sent s ++ [request (curPage s)]).
Proof.
  intros tr. unfold inat.body.
  destruct (exchange _) as [obs|err].
  - destruct (_ =? 0); [split; [intros rs [= _ <-]; reflexivity | discriminate]|].
    destruct (_ >=? _); split; try discriminate. intros rs [= _ <-]. reflexivity.
  - split; [discriminate|]. intros err' [= _ <-]. reflexivity.
Qed.

(** X20: whenever the call ends, the requests it sent are those of pages
    1, 2, ..., n in this order, one each, with n at least 1. *)
Theorem DownloadObservations_requests_pages_in_order (fuel : nat)
    (out : inat.outcome (list Result)) (tr : list inat.Request) :
  DownloadObservations fuel = Some (out, tr) ->
  tr = map (fun p => request p) (seq 1 (length tr))
  /\ (1 <= length tr <= fuel)%nat.
Proof.
  intros H. unfold inat.DownloadObservations in H.
  destruct (loop_ends fuel start out tr (inat.reaches_start _ _ _ _ _ _) H)
    as (s & Hs & Hlt & Hend).
  cbn [inat.curPage inat.start] in Hlt.
  pose proof (reaches_page _ _ _ _ _ _ s Hs) as Hp.
  destruct (reaches_gathered _ _ _ _ _ _ s Hs) as [_ Hsent].
  assert (Htr : tr = sent s ++ [request (curPage s)]).
  { destruct (body_sent s tr) as [Hb He].
    destruct Hend as [(rs & Hbody & _)|(err & Hbody & _)]; eauto. }
  assert (Hlen : length tr = curPage s).
  { rewrite Htr, length_app, Hsent, length_map, length_seq. cbn. lia. }
  rewrite Hlen. split; [|lia].
  rewrite Htr, Hsent.
  replace (curPage s) with (S (curPage s - 1)) at 3 by lia.
  rewrite seq_S, map_app. cbn [map].
  replace (1 + (curPage s - 1))%nat with (curPage s) by lia. reflexivity.
Qed.

(** What has been gathered is what the pages before counted. *)
Lemma reaches_counted s : reaches s ->
  results s = flat_map counted (seq 1 (curPage s - 1)).
Proof.
  induction 1 as [|s s' Hs IH Hb]; [reflexivity|].
  pose proof (reaches_page _ _ _ _ _ _ s Hs) as Hp.
  apply body_Continue in Hb as (obs & Hx & Hobs & _ & ->).
  cbn [inat.curPage inat.results].
  replace (S (curPage s) - 1)%nat with (S (curPage s - 1)) by lia.
  rewrite seq_S, flat_map_app, <- IH.
  replace (1 + (curPage s - 1))%nat with (curPage s) by lia.
  cbn [flat_map]. unfold inat.counted. rewrite Hx.
  destruct (Z.eqb_spec (inat.TotalResults obs) 0); [contradiction|].
  rewrite app_nil_r. reflexivity.
Qed.

(** X21: the results returned are the results of the pages requested, in
    page order, nothing dropped or repeated, except that a page reporting
    a total of zero contributes nothing. *)
Theorem DownloadObservations_returns_pages_in_order (fuel : nat)
    (rs : list Result) (tr : list inat.Request) :
  DownloadObservations fuel = Some (inat.Return rs, tr) ->
  rs = flat_map counted (seq 1 (length tr)).
Proof.
  intros H.
  destruct (DownloadObservations_requests_pages_in_order fuel _ tr H) as [_ [Hlen _]].
  unfold inat.DownloadObservations in H.
  destruct (loop_ends fuel start _ tr (inat.reaches_start _ _ _ _ _ _) H)
    as (s & Hs & _ & [(rs' & Hbody & [= <-])|(err & _ & Hout)]); [|discriminate Hout].
  pose proof (reaches_page _ _ _ _ _ _ s Hs) as Hp.
  destruct (body_sent s tr) as [Htr _]. specialize (Htr rs Hbody).
  destruct (reaches_gathered _ _ _ _ _ _ s Hs) as [_ Hsent].
  assert (Hn : length tr = curPage s).
  { rewrite Htr, length_app, Hsent, length_map, length_seq. cbn. lia. }
  rewrite Hn. replace (curPage s) with (S (curPage s - 1)) at 1 by lia.
  rewrite seq_S, flat_map_app, <- (reaches_counted s Hs).
  replace (1 + (curPage s - 1))%nat with (curPage s) by lia.
  cbn [flat_map]. rewrite app_nil_r.
  apply body_Break in Hbody as (obs & Hx & _ & Hstop).
  unfold inat.counted. rewrite Hx.
  destruct Hstop as [[H0 ->]|(H0 & -> & _)].
  - rewrite H0. cbn. rewrite app_nil_r. reflexivity.
  - destruct (Z.eqb_spec (inat.TotalResults obs) 0); [contradiction|]. reflexivity.
Qed.


(** X22: the process exits with an error exactly at a page whose exchange
    fails: a fatal outcome carries the error of the last request, and a
    failing exchange at any page the loop gets to is fatal at once, the
    results gathered so far being dropped. *)
Theorem DownloadObservations_fatal_iff_exchange_fails (fuel : nat) (err : string)
    (tr : list inat.Request) :
  (DownloadObservations fuel = Some (inat.Fatal err, tr) ->
   exchange (request (length tr)) = inr err)
  /\ forall s, reaches s -> exchange (request (curPage s)) = inr err ->
       DownloadObservations (curPage s)
       = Some (inat.Fatal err, sent s ++ [request (curPage s)]).
Proof.
  split.
  - intros H.
    unfold inat.DownloadObservations in H.
    destruct (loop_ends fuel start _ tr (inat.reaches_start _ _ _ _ _ _) H)
      as (s & Hs & _ & [(rs' & _ & Hout)|(err' & Hbody & [= <-])]); [discriminate Hout|].
    pose proof (reaches_page _ _ _ _ _ _ s Hs) as Hp.
    destruct (body_sent s tr) as [_ Htr]. specialize (Htr err Hbody).
    destruct (reaches_gathered _ _ _ _ _ _ s Hs) as [_ Hsent].
    assert (Hn : length tr = curPage s).
    { rewrite Htr, length_app, Hsent, length_map, length_seq. cbn. lia. }
    rewrite Hn. revert Hbody. unfold inat.body.
    destruct (exchange _) as [obs|e].
    + destruct (_ =? 0); [discriminate|]. destruct (_ >=? _); discriminate.
    + intros [= -> _]. reflexivity.
  - intros s Hs Hx. pose proof (reaches_page _ _ _ _ _ _ s Hs) as Hp.
    unfold inat.DownloadObservations.
    replace (curPage s) with (curPage s - 1 + 1)%nat at 1 by lia.
    rewrite (reaches_loop _ _ _ _ _ _ s Hs 1), loop_S. unfold inat.body.
    rewrite Hx. reflexivity.
Qed.

(** At page 1 no total has been captured yet. *)
Lemma reaches_first_page s : reaches s -> curPage s = 1%nat -> totalResults s = 0.
Proof.
  intros Hs H1. destruct Hs as [|s0 s Hs0 Hb]; [reflexivity|].
  pose proof (reaches_page _ _ _ _ _ _ s0 Hs0) as Hp0.
  apply body_Continue in Hb as (obs & _ & _ & _ & ->).
  cbn [inat.curPage] in H1. lia.
Qed.

(** After page 1 the total is the one that page 1 reported. *)
Lemma reaches_first_total s : reaches s -> (1 < curPage s)%nat ->
  exists obs1, exchange (request 1) = inl obs1
               /\ totalResults s = inat.TotalResults obs1
               /\ inat.TotalResults obs1 <> 0.
Proof.
  induction 1 as [|s s' Hs IH Hb]; [cbn; lia|]. intros _.
  pose proof (reaches_page _ _ _ _ _ _ s Hs) as Hp.
  apply body_Continue in Hb as (obs & Hx & Hobs & _ & ->).
  cbn [inat.totalResults inat.curPage]. unfold inat.captured.
  destruct (Nat.eq_dec (curPage s) 1%nat) as [H1|H1].
  - pose proof (reaches_first_page s Hs H1) as Hstart.
    rewrite Hstart. cbn [Z.eqb]. exists obs. rewrite <- H1. auto.
  - destruct (IH ltac:(lia)) as (obs1 & Hx1 & Ht & Hne).
    exists obs1. rewrite Ht.
    destruct (Z.eqb_spec (inat.TotalResults obs1) 0); [contradiction|]. auto.
Qed.

(** X23: the count is compared with the total of page 1 only: when the call
    returns on a page with a nonzero total, it returns at least as many
    results as page 1 reported, whatever totals later pages report. *)
Theorem DownloadObservations_compares_with_first_total (fuel : nat)
    (rs : list Result) (tr : list inat.Request)
    (obs1 obsN : inat.Observations Result) :
  DownloadObservations fuel = Some (inat.Return rs, tr) ->
  exchange (request 1) = inl obs1 ->
  exchange (request (length tr)) = inl obsN ->
  inat.TotalResults obsN <> 0 ->
  inat.TotalResults obs1 <= Z.of_nat (length rs).
Proof.
  intros H Hx1 HxN HN.
  unfold inat.DownloadObservations in H.
  destruct (loop_ends fuel start _ tr (inat.reaches_start _ _ _ _ _ _) H)
    as (s & Hs & _ & [(rs' & Hbody & [= <-])|(err & _ & Hout)]); [|discriminate Hout].
  pose proof (reaches_page _ _ _ _ _ _ s Hs) as Hp.
  destruct (body_sent s tr) as [Htr _]. specialize (Htr rs Hbody).
  destruct (reaches_gathered _ _ _ _ _ _ s Hs) as [_ Hsent].
  assert (Hn : length tr = curPage s).
  { rewrite Htr, length_app, Hsent, length_map, length_seq. cbn. lia. }
  rewrite Hn in HxN.
  apply body_Break in Hbody as (obs & Hx & _ & Hstop).
  rewrite HxN in Hx. injection Hx as <-.
  destruct Hstop as [[H0 _]|(_ & _ & Hcap)]; [contradiction|].
  revert Hcap. unfold inat.captured.
  destruct (Nat.eq_dec (curPage s) 1%nat) as [H1|H1].
  - pose proof (reaches_first_page s Hs H1) as Hstart.
    rewrite Hstart. cbn [Z.eqb]. rewrite H1, Hx1 in HxN. injection HxN as <-. trivial.
  - destruct (reaches_first_total s Hs ltac:(lia)) as (obs1' & Hx1' & Ht & Hne).
    rewrite Hx1 in Hx1'. injection Hx1' as <-. rewrite Ht.
    destruct (Z.eqb_spec (inat.TotalResults obs1) 0); [contradiction|]. trivial.
Qed.

(** X24: when page 1 reports a nonzero total that its own results already
    reach (a negative total included), the call returns the results of
    page 1 after that one request. *)
Theorem DownloadObservations_single_page (obs1 : inat.Observations Result) :
  exchange (request 1) = inl obs1 ->
  inat.TotalResults obs1 <> 0 ->
  inat.TotalResults obs1 <= Z.of_nat (length (inat.Results obs1)) ->
  DownloadObservations 1 = Some (inat.Return (inat.Results obs1), [request 1]).
Proof.
  intros Hx Hne Hle. unfold inat.DownloadObservations.
  rewrite loop_S, (body_results _ _ _ _ _ _ start obs1 Hx Hne).
  unfold inat.captured. cbn [inat.start inat.totalResults inat.results inat.sent
                            inat.curPage Z.eqb app].
  destruct (Z.geb_spec (Z.of_nat (length (inat.Results obs1))) (inat.TotalResults obs1));
    [reflexivity | lia].
Qed.

Lemma loop_progress_tight (n : nat) : progress -> forall s,
  totalResults s <> 0 ->
  totalResults s - Z.of_nat (length (results s)) <= Z.of_nat (S n) ->
  exists out, loop (S n) s = Some out.
Proof.
  intros Hprog. induction n as [|n IH]; intros s Htot Hgap; rewrite loop_S;
    destruct (body s) as [s'|rs tr|err tr] eqn:Hb; eauto;
    apply body_Continue in Hb as (obs & Hx & Hobs & Hlt & ->);
    pose proof (Hprog _ _ Hx Hobs) as Hne;
    assert (Hcap : captured s obs = totalResults s)
      by (unfold inat.captured; destruct (Z.eqb_spec (totalResults s) 0);
          [contradiction|reflexivity]);
    rewrite Hcap, length_app in Hlt;
    assert (1 <= length (inat.Results obs))%nat
      by (destruct (inat.Results obs); [contradiction|simpl; lia]).
  - lia.
  - apply IH; cbn [inat.totalResults inat.results]; rewrite ?Hcap, ?length_app;
      [assumption | lia].
Qed.

(** X25: when every page with a nonzero total carries at least one result
    and page 1 reports the total T > 0, the call ends within T requests. *)
Theorem DownloadObservations_request_bound (obs1 : inat.Observations Result) :
  progress ->
  exchange (request 1) = inl obs1 ->
  0 < inat.TotalResults obs1 ->
  exists out tr,
    DownloadObservations (Z.to_nat (inat.TotalResults obs1)) = Some (out, tr)
    /\ Z.of_nat (length tr) <= inat.TotalResults obs1.
Proof.
  intros Hprog Hx Hpos.
  assert (Hrun : exists out,
            DownloadObservations (Z.to_nat (inat.TotalResults obs1)) = Some out).
  { unfold inat.DownloadObservations.
    destruct (Z.to_nat (inat.TotalResults obs1)) as [|n] eqn:Hn; [lia|].
    rewrite loop_S.
    destruct (body start) as [s1|rs tr|err tr] eqn:Hb; eauto.
    apply body_Continue in Hb as (obs & Hx' & Hobs & Hlt & ->).
    cbn [inat.curPage inat.start] in Hx'. rewrite Hx in Hx'. injection Hx' as <-.
    pose proof (Hprog _ _ Hx Hobs) as Hne.
    revert Hlt. unfold inat.captured.
    cbn [inat.start inat.totalResults inat.results Z.eqb app]. intros Hlt.
    assert (1 <= length (inat.Results obs1))%nat
      by (destruct (inat.Results obs1); [contradiction|simpl; lia]).
    destruct n as [|n]; [lia|].
    apply (loop_progress_tight n Hprog); cbn [inat.totalResults inat.results]; lia. }
  destruct Hrun as [[out tr] Hrun]. exists out, tr. split; [exact Hrun|].
  destruct (DownloadObservations_requests_pages_in_order _ _ _ Hrun) as [_ [_ Hle]]. lia.
Qed.

End PaginationRuns.

(** X20 on the server whose page 2 reports a total of zero: two requests,
    for pages 1 and 2. *)
Lemma DownloadObservations_requests_pages_in_order_witness :
  [inat.request "user" None None [] 1; inat.request "user" None None [] 2]
  = map (fun p => inat.request "user" None None [] p) (seq 1 2)
  /\ (1 <= 2 <= 2)%nat.
Proof.
  exact (DownloadObservations_requests_pages_in_order nat
           (sample.pages sample.zeroLater) "user" None None [] 2
           (inat.Return [1; 2]%nat)
           [inat.request "user" None None [] 1; inat.request "user" None None [] 2]
           eq_refl).
Defined.

(** X21 on the same run: the results of page 1, and nothing of page 2. *)
Lemma DownloadObservations_returns_pages_in_order_witness :
  [1; 2]%nat
  = flat_map (inat.counted nat (sample.pages sample.zeroLater) "user" None None [])
      (seq 1 2).
Proof.
  exact (DownloadObservations_returns_pages_in_order nat
           (sample.pages sample.zeroLater) "user" None None [] 2 [1; 2]%nat
           [inat.request "user" None None [] 1; inat.request "user" None None [] 2]
           eq_refl).
Defined.

(** X22 on a server whose second request fails. *)
Lemma DownloadObservations_fatal_iff_exchange_fails_witness :
  sample.brokenAtPage2 (inat.request "user" None None [] 2) = inr "unexpected EOF"
  /\ inat.DownloadObservations nat sample.brokenAtPage2 "user" None None [] 2
     = Some (inat.Fatal "unexpected EOF",
             [inat.request "user" None None [] 1; inat.request "user" None None [] 2]).
Proof.
  destruct (DownloadObservations_fatal_iff_exchange_fails nat sample.brokenAtPage2
              "user" None None [] 2 "unexpected EOF"
              [inat.request "user" None None [] 1; inat.request "user" None None [] 2])
    as [H1 H2].
  split.
  - exact (H1 eq_refl).
  - pose (s := inat.mkState nat 2 [1; 2]%nat 5%Z [inat.request "user" None None [] 1]).
    assert (Hs : inat.reaches nat sample.brokenAtPage2 "user" None None [] s).
    { apply (inat.reaches_turn nat _ "user" None None [] (inat.start nat) s).
      - apply inat.reaches_start.
      - reflexivity. }
    exact (H2 s Hs eq_refl).
Defined.

(** X23 on a server whose page 2 reports a larger total than page 1. *)
Lemma DownloadObservations_compares_with_first_total_witness :
  (3 <= Z.of_nat (length [1; 2; 3]%nat))%Z.
Proof.
  exact (DownloadObservations_compares_with_first_total nat
           (sample.pages sample.inflating) "user" None None [] 2 [1; 2; 3]%nat
           [inat.request "user" None None [] 1; inat.request "user" None None [] 2]
           (sample.inflating 1) (sample.inflating 2)
           eq_refl eq_refl eq_refl ltac:(discriminate)).
Defined.

(** X24 on a server that reports a negative total. *)
Lemma DownloadObservations_single_page_witness :
  inat.DownloadObservations nat (sample.pages sample.negativeTotal) "user" None None [] 1
  = Some (inat.Return [], [inat.request "user" None None [] 1]).
Proof.
  exact (DownloadObservations_single_page nat (sample.pages sample.negativeTotal)
           "user" None None [] (sample.negativeTotal 1)
           eq_refl ltac:(discriminate) ltac:(cbn; lia)).
Defined.

(** X25 on the server that reports a total of 3 and one result a page. *)
Lemma DownloadObservations_request_bound_witness :
  exists out tr,
    inat.DownloadObservations nat (sample.pages sample.steady) "user" None None [] 3
    = Some (out, tr)
    /\ (Z.of_nat (length tr) <= 3)%Z.
Proof.
  exact (DownloadObservations_request_bound nat (sample.pages sample.steady)
           "user" None None [] (sample.steady 1) steady_progress eq_refl
           ltac:(cbn; lia)).
Defined.
